(** * api/yfinance.py: the quote aggregation endpoint

    A shallow embedding of the request handler of [api/yfinance.py] and of
    its helpers [as_float], [unique_symbols] and [parse_close_and_prev].

    Conventions of the embedding.
    - Python [float] is IEEE 754 binary64: Rocq's primitive [float].
    - Python [str] is [string]; the text handled here is ASCII (ticker
      symbols and field names), and [strip]/[upper] are given on the ASCII
      code points.
    - [dict] is [gmap], [set] is [gset], [list] is [list].
    - A call into the market-data client either returns or raises; a raised
      exception is the constructor [Raise] of [outcome]. The handler catches
      the exceptions of [fast_info] and [history]; an exception of
      [yf.Tickers] or [yf.Ticker] leaves [do_GET], and no response is
      written.
    - Outside ASCII, Python's [str.strip] and [str.upper] do more than the
      functions of [PyStr] (U+00A0 is a blank, the upper case of one
      character can be two): the properties that look inside these
      functions are stated for ASCII input, [is_ascii]. *)

From Stdlib Require Import ZArith PrimFloat SpecFloat FloatOps Ascii String.
From stdpp Require Import gmap strings list.

Local Open Scope string_scope.

(** ** Python strings *)

Module PyStr.

(** [str.isspace] on one ASCII code point: TAB, LF, VT, FF, CR, the four
    separators FS, GS, RS, US, and the space. *)
Definition isspace (c : ascii) : bool :=
  let n := nat_of_ascii c in
  (((9 <=? n) && (n <=? 13)) || ((28 <=? n) && (n <=? 32)))%nat.

(** [str.upper] on one ASCII code point. *)
Definition upper_char (c : ascii) : ascii :=
  let n := nat_of_ascii c in
  if ((97 <=? n) && (n <=? 122))%nat then ascii_of_nat (n - 32) else c.

Fixpoint upper (s : string) : string :=
  match s with
  | EmptyString => EmptyString
  | String c s' => String (upper_char c) (upper s')
  end.

Fixpoint lstrip (s : string) : string :=
  match s with
  | EmptyString => EmptyString
  | String c s' => if isspace c then lstrip s' else s
  end.

Fixpoint rstrip (s : string) : string :=
  match s with
  | EmptyString => EmptyString
  | String c s' =>
      match rstrip s' with
      | EmptyString => if isspace c then EmptyString else String c EmptyString
      | r => String c r
      end
  end.

(** [s.strip()] *)
Definition strip (s : string) : string := rstrip (lstrip s).

(** [s.split(sep)] for a one-character separator: never the empty list,
    [''.split(',') == ['']]. *)
Fixpoint split (sep : ascii) (s : string) : list string :=
  match s with
  | EmptyString => [EmptyString]
  | String c s' =>
      if Ascii.eqb c sep then EmptyString :: split sep s'
      else match split sep s' with
           | [] => [String c EmptyString]
           | t :: ts => String c t :: ts
           end
  end.

(** [sep.join(l)] *)
Fixpoint join (sep : string) (l : list string) : string :=
  match l with
  | [] => EmptyString
  | [s] => s
  | s :: l' => s ++ sep ++ join sep l'
  end.

(** Truth value of a string: [not s] holds exactly for the empty one. *)
Definition nonempty (s : string) : bool :=
  match s with EmptyString => false | String _ _ => true end.

End PyStr.

(** ** Symbol normalisation *)

Definition MAX_SYMBOLS : nat := 220.

(** The [for token in raw.split(",")] loop of [unique_symbols], with its two
    accumulators [seen] and [out]. *)
Fixpoint unique_symbols_loop (tokens : list string) (seen : gset string)
    (out : list string) : list string :=
  match tokens with
  | [] => out
  | token :: rest =>
      let symbol := PyStr.upper (PyStr.strip token) in
      if negb (PyStr.nonempty symbol) || bool_decide (symbol ∈ seen)
      then unique_symbols_loop rest seen out
      else unique_symbols_loop rest ({[symbol]} ∪ seen) (out ++ [symbol])
  end.

Definition unique_symbols (raw : string) : list string :=
  unique_symbols_loop (PyStr.split "," raw) ∅ [].

(** [unique_symbols(raw)[:MAX_SYMBOLS]] *)
Definition request_symbols (raw : string) : list string :=
  take MAX_SYMBOLS (unique_symbols raw).

(** *** The normalisation as the specification words it *)

(** Keep the first occurrence of every element, in the original order. *)
Fixpoint keep_first (l : list string) : list string :=
  match l with
  | [] => []
  | x :: l' => x :: filter (λ y, y ≠ x) (keep_first l')
  end.

Definition spec_normalize (raw : string) : list string :=
  take 220
    (keep_first
       (filter (λ s, s ≠ EmptyString)
          (map (λ token, PyStr.upper (PyStr.strip token)) (PyStr.split "," raw)))).

(** ** Python values *)

(** The values the market-data client hands back: [None], booleans,
    integers, floats and strings. *)
Inductive pyval : Type :=
  | VNone
  | VBool (b : bool)
  | VInt (z : Z)
  | VFloat (f : float)
  | VStr (s : string).

(** A call that may raise: [Raise] stands for any exception. *)
Inductive outcome (A : Type) : Type :=
  | Ok (a : A)
  | Raise.
Arguments Ok {A} a.
Arguments Raise {A}.

(** Truth value of a Python object, as [or], [not] and [if] test it. Zero of
    either sign is false, NaN is true. *)
Definition truthy (v : pyval) : bool :=
  match v with
  | VNone => false
  | VBool b => b
  | VInt z => negb (z =? 0)%Z
  | VFloat f => negb (f =? 0)%float
  | VStr s => PyStr.nonempty s
  end.

(** [a or b] *)
Definition py_or (a b : pyval) : pyval := if truthy a then a else b.

(** [d.get(k)]: [None] for a missing key. *)
Definition dict_get (d : gmap string pyval) (k : string) : pyval :=
  default VNone (d !! k).

(** [float(z)] for an integer: the nearest binary64 value, ties to even;
    [OverflowError] when the integer is too large for a float. *)
Definition float_of_int (z : Z) : outcome float :=
  let f := SF2Prim (binary_normalize prec emax z 0 false) in
  if is_infinity f then Raise else Ok f.

(** ** The market-data client (yfinance, pandas) *)

(** A [pandas.DataFrame]: its index and its columns by name. *)
Record DataFrame : Type := {
  index : list Z;
  columns : gmap string (list pyval) }.

(** pandas' missing-value test: [None] and NaN. *)
Definition isna (v : pyval) : bool :=
  match v with
  | VNone => true
  | VFloat f => is_nan f
  | _ => false
  end.

(** [series.dropna().tolist()] *)
Definition dropna (col : list pyval) : list pyval :=
  List.filter (λ v, negb (isna v)) col.

(** [l[-k]] on a list of at least [k] items, [1 <= k]. *)
Definition item_from_end (l : list pyval) (k : nat) : pyval :=
  default VNone (l !! (length l - k)).

(** A [yfinance.Ticker] as this handler uses it: reading the [fast_info]
    attribute and calling [history(period="5d", interval="1d",
    auto_adjust=False)], either of which may raise. [fast_info] may be
    [None] (or missing), which [getattr(...) or {}] turns into [{}]. *)
Record TickerObj : Type := {
  fast_info : outcome (option (gmap string pyval));
  history : outcome (option DataFrame) }.

(** The [yf] module: [yf.Tickers(names).tickers] and [yf.Ticker(name)],
    each of which may raise. *)
Record yfinance : Type := {
  yf_Tickers : string → outcome (gmap string TickerObj);
  yf_Ticker : string → outcome TickerObj }.

(** What the handler asks of the client, in the order it asks. *)
Inductive call : Type :=
  | CallTickers (names : string)
  | CallTicker (symbol : string)
  | ReadFastInfo (symbol : string)
  | CallHistory (symbol : string).

(** ** The response *)

(** One element of the payload: the dict literal of [do_GET]. *)
Record Quote : Type := {
  symbol : string;
  price : option float;
  previousClose : option float;
  changePct : option float;
  marketCap : option float;
  volume : option float;
  averageVolume : option float;
  high24h : option float;
  low24h : option float;
  currency : pyval;
  exchange : pyval;
  name : string }.

(** The object given to [json.dumps]. *)
Inductive Body : Type :=
  | ErrorBody (fields : list (string * string))
  | PayloadBody (payload : list Quote).

Record Response : Type := {
  status : nat;
  headers : list (string * string);
  body : Body }.

(** The local variables of one loop iteration, after [symbol] and
    [ticker]. *)
Module Locals.
Record t : Type := {
  close : option float;
  prev_close : option float;
  volume : option float;
  market_cap : option float;
  currency : pyval;
  exchange : pyval }.
End Locals.

(** The handler's state while it loops: the payload built so far and the
    calls made so far. *)
Record State : Type := {
  payload : list Quote;
  calls : list call }.

(** ** Sample data *)

Module Sample.

(** A string parser that accepts nothing: the samples hold no string
    where a number is read. *)
Definition float_of_str : string → outcome float := λ _, Raise.

(** A snapshot whose first price candidate is a zero. *)
Definition fast_zero_price : gmap string pyval :=
  {[ "lastPrice" := VFloat 0; "regularMarketPrice" := VFloat 5 ]}.

(** A snapshot with a price of 110 and a previous close of 100, and an
    empty currency. *)
Definition fast_110_100 : gmap string pyval :=
  {[ "lastPrice" := VFloat 110; "previousClose" := VFloat 100;
     "currency" := VStr EmptyString ]}.

(** Two daily bars, oldest first. *)
Definition bars_98_101 : DataFrame :=
  {| index := [1; 2]%Z;
     columns :=
       {[ "Close" := [VFloat 98; VFloat 101];
          "Volume" := [VInt 1000; VInt 1200] ]} |}.

(** No live data, two daily bars. *)
Definition ticker_history_only : TickerObj :=
  {| fast_info := Raise; history := Ok (Some bars_98_101) |}.

(** A live price, no history. *)
Definition ticker_live : TickerObj :=
  {| fast_info := Ok (Some fast_110_100); history := Raise |}.

(** Neither. *)
Definition ticker_failing : TickerObj :=
  {| fast_info := Raise; history := Raise |}.

(** A live price of 100 over a previous close of infinity. *)
Definition ticker_infinite_previous_close : TickerObj :=
  {| fast_info :=
       Ok (Some {[ "lastPrice" := VFloat 100;
                   "previousClose" := VFloat infinity ]});
     history := Raise |}.

(** A client that knows AAPL and MSFT in the batch and whose handle for
    every other symbol fails on both calls. *)
Definition client : yfinance :=
  {| yf_Tickers := λ _,
       Ok {[ "AAPL" := ticker_history_only; "MSFT" := ticker_live ]};
     yf_Ticker := λ _, Ok ticker_failing |}.

(** The same batch, but [yf.Ticker] raises for every other symbol. *)
Definition client_no_handle : yfinance :=
  {| yf_Tickers := λ _,
       Ok {[ "AAPL" := ticker_history_only; "MSFT" := ticker_live ]};
     yf_Ticker := λ _, Raise |}.

(** [?symbols=aapl,goog,msft] *)
Definition params_three : gmap string (string * list string) :=
  {[ "symbols" := ("aapl,goog,msft", []) ]}.

(** [?symbols=%20,%20] *)
Definition params_blank : gmap string (string * list string) :=
  {[ "symbols" := (" , ", []) ]}.

End Sample.

Section Handler.

(** [float(s)] for a string, a builtin of the interpreter: the parsed
    number, or [Raise] for [ValueError]. *)
Variable float_of_str : string → outcome float.

(** [float(value)] *)
Definition py_float (value : pyval) : outcome float :=
  match value with
  | VNone => Raise
  | VBool b => Ok (if b then 1 else 0)%float
  | VInt z => float_of_int z
  | VFloat f => Ok f
  | VStr s => float_of_str s
  end.

Definition as_float (value : pyval) : option float :=
  match value with
  | VNone => None
  | _ =>
      match py_float value with
      | Ok out => if negb (out =? out)%float then None else Some out
      | Raise => None
      end
  end.

Definition parse_close_and_prev (history : option DataFrame)
    : option float * option float * option float :=
  match history with
  | None => (None, None, None)
  | Some history =>
      if (length (index history) =? 0)%nat then (None, None, None)
      else
        let closes :=
          match columns history !! "Close" with
          | Some col => dropna col
          | None => []
          end in
        let volumes :=
          match columns history !! "Volume" with
          | Some col => dropna col
          | None => []
          end in
        let close :=
          if (1 <=? length closes)%nat
          then as_float (item_from_end closes 1) else None in
        let prev_close :=
          if (2 <=? length closes)%nat
          then as_float (item_from_end closes 2) else None in
        let volume :=
          if (1 <=? length volumes)%nat
          then as_float (item_from_end volumes 1) else None in
        (close, prev_close, volume)
  end.

(** Lines 67-71: [fast = dict(getattr(ticker, "fast_info", {}) or {})], and
    [{}] when that raises. *)
Definition read_fast (ticker : TickerObj) : gmap string pyval :=
  match fast_info ticker with
  | Ok (Some info) => info
  | Ok None => ∅
  | Raise => ∅
  end.

(** Lines 73-78: the fields read from the live snapshot. *)
Definition live_fields (fast : gmap string pyval) : Locals.t :=
  {| Locals.close :=
       as_float (py_or (dict_get fast "lastPrice")
                   (py_or (dict_get fast "last_price")
                      (dict_get fast "regularMarketPrice")));
     Locals.prev_close :=
       as_float (py_or (dict_get fast "previousClose")
                   (dict_get fast "previous_close"));
     Locals.volume :=
       as_float (py_or (dict_get fast "lastVolume") (dict_get fast "last_volume"));
     Locals.market_cap :=
       as_float (py_or (dict_get fast "marketCap") (dict_get fast "market_cap"));
     Locals.currency := dict_get fast "currency";
     Locals.exchange := dict_get fast "exchange" |}.

(** [if x is None: x = y] *)
Definition if_none (x y : option float) : option float :=
  match x with
  | None => y
  | Some _ => x
  end.

(** Lines 81-91: the [try] block of the fallback; an exception leaves the
    locals as they were. *)
Definition history_fallback (ticker : TickerObj) (loc : Locals.t) : Locals.t :=
  match history ticker with
  | Raise => loc
  | Ok hist =>
      let '(h_close, h_prev, h_vol) := parse_close_and_prev hist in
      {| Locals.close := if_none (Locals.close loc) h_close;
         Locals.prev_close := if_none (Locals.prev_close loc) h_prev;
         Locals.volume := if_none (Locals.volume loc) h_vol;
         Locals.market_cap := Locals.market_cap loc;
         Locals.currency := Locals.currency loc;
         Locals.exchange := Locals.exchange loc |}
  end.

(** Lines 67-91: the locals of one iteration and the calls it made. *)
Definition resolve_fields (ticker : TickerObj) (symbol : string)
    : Locals.t * list call :=
  let loc := live_fields (read_fast ticker) in
  match Locals.close loc with
  | None => (history_fallback ticker loc, [ReadFastInfo symbol; CallHistory symbol])
  | Some _ => (loc, [ReadFastInfo symbol])
  end.

(** Lines 96-98. *)
Definition change_pct (close : float) (prev_close : option float) : option float :=
  match prev_close with
  | Some prev =>
      if (0 <? prev)%float then Some ((close - prev) / prev * 100)%float
      else None
  | None => None
  end.

(** Lines 93-115: nothing when [close is None] ([continue]), else the
    record appended to the payload. *)
Definition make_quote (symbol : string) (loc : Locals.t) : option Quote :=
  match Locals.close loc with
  | None => None
  | Some close =>
      Some {| symbol := symbol;
              price := Some close;
              previousClose := Locals.prev_close loc;
              changePct := change_pct close (Locals.prev_close loc);
              marketCap := Locals.market_cap loc;
              volume := Locals.volume loc;
              averageVolume := None;
              high24h := None;
              low24h := None;
              currency := py_or (Locals.currency loc) (VStr "USD");
              exchange := Locals.exchange loc;
              name := symbol |}
  end.

(** What one iteration contributes to the payload. *)
Definition resolve_symbol (ticker : TickerObj) (symbol : string) : option Quote :=
  make_quote symbol (fst (resolve_fields ticker symbol)).

(** Lines 63-65: the handle from the batch, or a fresh one; [yf.Ticker] is
    called outside every [try], so its exception is the exception of the
    iteration. *)
Definition get_ticker (yf : yfinance) (tickers : gmap string TickerObj)
    (symbol : string) : outcome TickerObj * list call :=
  match tickers !! symbol with
  | Some ticker => (Ok ticker, [])
  | None => (yf_Ticker yf symbol, [CallTicker symbol])
  end.

(** The body of [for symbol in symbols]: the state after the iteration, or
    the exception of [yf.Ticker]; in both cases with the calls made so
    far. *)
Definition loop_body (yf : yfinance) (tickers : gmap string TickerObj)
    (st : State) (symbol : string) : outcome State * list call :=
  match get_ticker yf tickers symbol with
  | (Raise, made) => (Raise, (calls st ++ made)%list)
  | (Ok ticker, made) =>
      let '(loc, made') := resolve_fields ticker symbol in
      (Ok {| payload :=
               match make_quote symbol loc with
               | Some quote => payload st ++ [quote]
               | None => payload st
               end;
             calls := calls st ++ made ++ made' |},
       (calls st ++ made ++ made')%list)
  end.

(** [for symbol in symbols]: an exception of the body ends the loop. *)
Fixpoint for_loop (yf : yfinance) (tickers : gmap string TickerObj)
    (symbols : list string) (st : State) : outcome State * list call :=
  match symbols with
  | [] => (Ok st, calls st)
  | symbol :: rest =>
      match loop_body yf tickers st symbol with
      | (Ok st', _) => for_loop yf tickers rest st'
      | (Raise, made) => (Raise, made)
      end
  end.

(** Line 49: [(params.get("symbols", [""])[0] or "").strip()]. [params] is
    the result of [parse_qs], whose lists are never empty: a first value
    and the rest. *)
Definition raw_symbols (params : gmap string (string * list string)) : string :=
  let first := fst (default (EmptyString, []) (params !! "symbols")) in
  PyStr.strip (if PyStr.nonempty first then first else EmptyString).

Definition json_content_type : string * string :=
  ("Content-Type", "application/json; charset=utf-8").

Definition missing_symbols_response : Response :=
  {| status := 400;
     headers := [json_content_type];
     body := ErrorBody [("error", "missing_symbols")] |}.

Definition payload_response (payload : list Quote) : Response :=
  {| status := 200;
     headers :=
       [json_content_type;
        ("Cache-Control", "s-maxage=12, stale-while-revalidate=60")];
     body := PayloadBody payload |}.

(** The response written, or [Raise] when an exception leaves [do_GET]
    (of [yf.Tickers], line 60, or of [yf.Ticker], line 65) and nothing is
    written; with the calls made. *)
Definition do_GET (yf : yfinance) (params : gmap string (string * list string))
    : outcome Response * list call :=
  let raw := raw_symbols params in
  let symbols := request_symbols raw in
  match symbols with
  | [] => (Ok missing_symbols_response, [])
  | _ :: _ =>
      let names := PyStr.join " " symbols in
      match yf_Tickers yf names with
      | Raise => (Raise, [CallTickers names])
      | Ok tickers =>
          match
            for_loop yf tickers symbols
              {| payload := []; calls := [CallTickers names] |}
          with
          | (Ok st, made) => (Ok (payload_response (payload st)), made)
          | (Raise, made) => (Raise, made)
          end
      end
  end.

(** ** Notions the properties are stated with *)

(** The symbol list of a request, line 50. *)
Definition symbols_of (params : gmap string (string * list string)) : list string :=
  request_symbols (raw_symbols params).

(** The handle the loop uses for [symbol], or the exception in its
    place. *)
Definition ticker_of (yf : yfinance) (symbols : list string) (symbol : string)
    : outcome TickerObj :=
  match yf_Tickers yf (PyStr.join " " symbols) with
  | Ok tickers => (get_ticker yf tickers symbol).1
  | Raise => Raise
  end.

(** Every handle of the request is obtained: neither [yf.Tickers] nor
    [yf.Ticker] raises. *)
Definition handles_ok (yf : yfinance) (symbols : list string) : Prop :=
  ∀ s, s ∈ symbols → ∃ ticker, ticker_of yf symbols s = Ok ticker.

(** The calls of the iteration for [symbol]. *)
Definition symbol_calls (yf : yfinance) (tickers : gmap string TickerObj)
    (symbol : string) : list call :=
  ((get_ticker yf tickers symbol).2 ++
   match (get_ticker yf tickers symbol).1 with
   | Ok ticker => (resolve_fields ticker symbol).2
   | Raise => []
   end)%list.

(** The record of [symbol], if it has a handle and a price. *)
Definition quote_of (yf : yfinance) (symbols : list string) (symbol : string)
    : option Quote :=
  match ticker_of yf symbols symbol with
  | Ok ticker => resolve_symbol ticker symbol
  | Raise => None
  end.

(** The price of [symbol] after the live snapshot and the fallback. *)
Definition resolved_price (yf : yfinance) (symbols : list string)
    (symbol : string) : option float :=
  match ticker_of yf symbols symbol with
  | Ok ticker => Locals.close (fst (resolve_fields ticker symbol))
  | Raise => None
  end.

(** The first candidate field whose value is not [None]: the chain as the
    specification words it. *)
Fixpoint first_present (fast : gmap string pyval) (names : list string) : pyval :=
  match names with
  | [] => VNone
  | k :: names' =>
      match dict_get fast k with
      | VNone => first_present fast names'
      | v => v
      end
  end.

(** The first candidate field whose value is true, and the value of the
    last candidate when none is. *)
Fixpoint first_truthy (fast : gmap string pyval) (names : list string) : pyval :=
  match names with
  | [] => VNone
  | [k] => dict_get fast k
  | k :: names' =>
      if truthy (dict_get fast k) then dict_get fast k
      else first_truthy fast names'
  end.

(** The [k]-th most recent value of a column that is not missing, [0] for
    the most recent; nothing when the frame has no such column or value. *)
Definition most_recent (hist : DataFrame) (column : string) (k : nat)
    : option pyval :=
  reverse (filter (λ v, isna v = false) (default [] (columns hist !! column))) !! k.

(** Text of ASCII code points only, the text on which [PyStr.isspace],
    [PyStr.upper] and [PyStr.strip] are the functions of Python. *)
Fixpoint is_ascii (s : string) : Prop :=
  match s with
  | EmptyString => True
  | String c s' => (nat_of_ascii c < 128)%nat ∧ is_ascii s'
  end.

(** [sep in s] for a one-character [sep]. *)
Fixpoint contains (sep : ascii) (s : string) : bool :=
  match s with
  | EmptyString => false
  | String c s' => Ascii.eqb c sep || contains sep s'
  end.

(** A symbol in the form [unique_symbols] produces: not empty, unchanged by
    [strip] and [upper], and without a comma. *)
Definition normal_symbol (s : string) : Prop :=
  s ≠ EmptyString ∧ PyStr.upper (PyStr.strip s) = s ∧ contains "," s = false.

(** The list a response carries: the payload of a 200, nothing for the
    error body. *)
Definition response_payload (r : Response) : list Quote :=
  match body r with
  | PayloadBody records => records
  | ErrorBody _ => []
  end.

(** An optional number that is not a NaN. *)
Definition not_nan (x : option float) : Prop :=
  ∀ f : float, x = Some f → is_nan f = false.

(** A handle whose failures are replaced by empty answers. *)
Definition quiet (ticker : TickerObj) : TickerObj :=
  {| fast_info :=
       match fast_info ticker with
       | Raise => Ok (Some ∅)
       | r => r
       end;
     history :=
       match history ticker with
       | Raise => Ok None
       | r => r
       end |}.

(** The client with the failures of [fast_info] and [history] replaced by
    empty answers; [yf.Tickers] and [yf.Ticker] raise as before. *)
Definition quiet_client (yf : yfinance) : yfinance :=
  {| yf_Tickers := λ names,
       match yf_Tickers yf names with
       | Ok tickers => Ok (quiet <$> tickers)
       | Raise => Raise
       end;
     yf_Ticker := λ symbol,
       match yf_Ticker yf symbol with
       | Ok ticker => Ok (quiet ticker)
       | Raise => Raise
       end |}.

(** ** Symbol normalisation *)

Lemma nonempty_spec (s : string) : PyStr.nonempty s = true ↔ s ≠ EmptyString.
Proof. destruct s; simpl; split; intros; congruence. Qed.

(** The loop of [unique_symbols], started anywhere: what is already in
    [out] stays, and of the remaining tokens the first occurrences that are
    not in [seen] are appended. *)
Lemma unique_symbols_loop_spec (tokens : list string) :
  ∀ (seen : gset string) (out : list string),
    unique_symbols_loop tokens seen out =
    (out ++ filter (λ s, s ∉ seen)
              (keep_first
                 (filter (λ s, s ≠ EmptyString)
                    (map (λ token, PyStr.upper (PyStr.strip token)) tokens))))%list.
Proof.
  induction tokens as [|token rest IH]; intros seen out; simpl.
  - by rewrite app_nil_r.
  - rewrite filter_cons.
    destruct (PyStr.nonempty (PyStr.upper (PyStr.strip token))) eqn:Hne; simpl.
    + apply nonempty_spec in Hne.
      rewrite decide_True by done. simpl. rewrite filter_cons.
      case_bool_decide as Hseen.
      * rewrite decide_False by tauto. rewrite IH. f_equal.
        rewrite list_filter_filter. apply list_filter_iff.
        intros x. split; [intros Hx; split; [done|congruence]|tauto].
      * rewrite decide_True by done. rewrite IH.
        rewrite <- app_assoc. simpl. do 2 f_equal.
        rewrite list_filter_filter. apply list_filter_iff.
        intros x. rewrite not_elem_of_union, not_elem_of_singleton. tauto.
    + rewrite decide_False; [apply IH|].
      intros Hn. apply nonempty_spec in Hn. congruence.
Qed.

Lemma filter_all {A : Type} (P : A → Prop) `{!∀ x, Decision (P x)} (l : list A) :
  (∀ x, P x) → filter P l = l.
Proof.
  intros HP. induction l as [|x l IH]; [done|].
  rewrite filter_cons, decide_True by done. by rewrite IH.
Qed.

(** C5. For every raw symbols string, the symbol list of the handler
    ([unique_symbols(raw)[:MAX_SYMBOLS]]) is the list obtained by splitting
    on [","], trimming and uppercasing every token, discarding the empty
    ones, keeping the first occurrence of every symbol in the original
    order and truncating to 220 entries; and
    ["aapl, MSFT,aapl , msft,GOOG"] normalises to [AAPL, MSFT, GOOG]. *)
Theorem C5_symbol_normalization :
  (∀ raw : string,
     request_symbols raw = spec_normalize raw ∧
     (length (request_symbols raw) ≤ MAX_SYMBOLS)%nat) ∧
  request_symbols "aapl, MSFT,aapl , msft,GOOG" = ["AAPL"; "MSFT"; "GOOG"].
Proof.
  split; [|by vm_compute].
  intros raw. split; [|unfold request_symbols; rewrite length_take; lia].
  unfold request_symbols, spec_normalize, unique_symbols.
  rewrite unique_symbols_loop_spec, app_nil_l.
  rewrite filter_all by (intros x; apply not_elem_of_empty). done.
Qed.

(** ** Numeric coercion *)

Lemma as_float_unfold (v : pyval) :
  as_float v =
  match py_float v with
  | Ok out => if is_nan out then None else Some out
  | Raise => None
  end.
Proof. destruct v; reflexivity. Qed.

Lemma as_float_Some (v : pyval) (f : float) :
  as_float v = Some f ↔ py_float v = Ok f ∧ is_nan f = false.
Proof.
  rewrite as_float_unfold. destruct (py_float v) as [out|].
  - destruct (is_nan out) eqn:Hnan.
    + split; [discriminate|]. intros [[= ->] Hf]. congruence.
    + split; [by intros [= ->]|]. by intros [[= ->] _].
  - split; [discriminate|]. by intros [[=] _].
Qed.

Lemma as_float_None (v : pyval) :
  as_float v = None ↔
  v = VNone ∨ py_float v = Raise ∨ ∃ f, py_float v = Ok f ∧ is_nan f = true.
Proof.
  rewrite as_float_unfold. split.
  - destruct (py_float v) as [out|] eqn:Hv; [|by auto].
    destruct (is_nan out) eqn:Hnan; [|done]. right; right. by exists out.
  - intros [->|[->|(f & -> & ->)]]; done.
Qed.

Lemma as_float_not_nan (v : pyval) : not_nan (as_float v).
Proof. intros f Hf. by apply as_float_Some in Hf as [_ ?]. Qed.

Lemma None_not_nan : not_nan None.
Proof. intros f Hf. discriminate. Qed.

Lemma if_none_not_nan (x y : option float) :
  not_nan x → not_nan y → not_nan (if_none x y).
Proof. by destruct x. Qed.

Lemma parse_close_and_prev_not_nan (hist : option DataFrame) :
  not_nan (parse_close_and_prev hist).1.1 ∧
  not_nan (parse_close_and_prev hist).1.2 ∧
  not_nan (parse_close_and_prev hist).2.
Proof.
  destruct hist as [h|]; simpl; [|auto using None_not_nan].
  destruct (length (index h) =? 0)%nat; simpl; [auto using None_not_nan|].
  repeat split; case_match; auto using None_not_nan, as_float_not_nan.
Qed.

(** No local that went through [as_float] holds a NaN, before or after the
    fallback. *)
Lemma resolve_fields_not_nan (ticker : TickerObj) (symbol : string) :
  let loc := (resolve_fields ticker symbol).1 in
  not_nan (Locals.close loc) ∧ not_nan (Locals.prev_close loc) ∧
  not_nan (Locals.volume loc) ∧ not_nan (Locals.market_cap loc).
Proof.
  cbv zeta. unfold resolve_fields.
  set (live := live_fields (read_fast ticker)).
  assert (not_nan (Locals.close live) ∧ not_nan (Locals.prev_close live) ∧
          not_nan (Locals.volume live) ∧ not_nan (Locals.market_cap live))
    as (Hc & Hp & Hv & Hm) by (repeat split; apply as_float_not_nan).
  clearbody live.
  destruct (Locals.close live) eqn:Hclose; cbn [fst].
  - rewrite Hclose. auto.
  - unfold history_fallback.
    destruct (history ticker) as [hist|]; [|rewrite Hclose; auto].
    pose proof (parse_close_and_prev_not_nan hist) as (H1 & H2 & H3).
    destruct (parse_close_and_prev hist) as [[h_close h_prev] h_vol].
    cbn in H1, H2, H3 |- *. rewrite Hclose.
    repeat split; try apply if_none_not_nan; assumption.
Qed.

Lemma make_quote_Some (symbol : string) (loc : Locals.t) (q : Quote) :
  make_quote symbol loc = Some q →
  ∃ c, Locals.close loc = Some c ∧
    q = {| symbol := symbol;
           price := Some c;
           previousClose := Locals.prev_close loc;
           changePct := change_pct c (Locals.prev_close loc);
           marketCap := Locals.market_cap loc;
           volume := Locals.volume loc;
           averageVolume := None;
           high24h := None;
           low24h := None;
           currency := py_or (Locals.currency loc) (VStr "USD");
           exchange := Locals.exchange loc;
           name := symbol |}.
Proof.
  unfold make_quote. destruct (Locals.close loc) as [c|]; [|done].
  intros [= <-]. by exists c.
Qed.

(** C7. Numeric coercion returns the converted number when the conversion
    succeeds and the result is not a NaN; an absent value, a failed
    conversion and a NaN all give absent; and in every emitted record none
    of the coerced fields (price, previousClose, volume, marketCap) is a
    NaN. *)
Theorem C7_numeric_coercion :
  (∀ v f, py_float v = Ok f → is_nan f = false → as_float v = Some f) ∧
  as_float VNone = None ∧
  (∀ v, py_float v = Raise → as_float v = None) ∧
  (∀ v f, py_float v = Ok f → is_nan f = true → as_float v = None) ∧
  as_float (VFloat nan) = None ∧
  (∀ v, not_nan (as_float v)) ∧
  (∀ ticker symbol q, resolve_symbol ticker symbol = Some q →
     not_nan (price q) ∧ not_nan (previousClose q) ∧
     not_nan (volume q) ∧ not_nan (marketCap q)).
Proof.
  split_and!.
  - intros v f Hv Hf. by apply as_float_Some.
  - reflexivity.
  - intros v Hv. apply as_float_None. auto.
  - intros v f Hv Hf. apply as_float_None. eauto.
  - reflexivity.
  - apply as_float_not_nan.
  - intros ticker symbol q Hq. apply make_quote_Some in Hq as (c & Hc & ->).
    cbn. rewrite <- Hc. apply resolve_fields_not_nan.
Qed.

(** C9. [as_float] is a total function; it gives absent only for [None],
    for a value that does not convert and for a NaN; a value that converts
    to plus or minus infinity comes back as that infinity, and such a value
    in the live snapshot becomes the price of an emitted record. *)
Theorem C9_infinity_not_folded :
  (∀ v, as_float v = None ↔
        v = VNone ∨ py_float v = Raise ∨
        ∃ f, py_float v = Ok f ∧ is_nan f = true) ∧
  (∀ v, py_float v = Ok infinity → as_float v = Some infinity) ∧
  (∀ v, py_float v = Ok neg_infinity → as_float v = Some neg_infinity) ∧
  as_float (VFloat infinity) = Some infinity ∧
  as_float (VFloat neg_infinity) = Some neg_infinity ∧
  (∀ symbol hist,
     price <$> resolve_symbol
       {| fast_info := Ok (Some {[ "lastPrice" := VFloat infinity ]});
          history := hist |} symbol = Some (Some infinity)).
Proof.
  split_and!.
  - apply as_float_None.
  - intros v Hv. by apply as_float_Some.
  - intros v Hv. by apply as_float_Some.
  - reflexivity.
  - reflexivity.
  - intros symbol hist. by vm_compute.
Qed.

(** ** The live snapshot *)

(** A true candidate is taken when every candidate before it is false. *)
Lemma first_truthy_takes (fast : gmap string pyval) (before : list string)
    (k : string) (after : list string) :
  Forall (λ k', truthy (dict_get fast k') = false) before →
  truthy (dict_get fast k) = true →
  first_truthy fast (before ++ k :: after) = dict_get fast k.
Proof.
  intros Hbefore Hk. induction Hbefore as [|k0 before Hk0 _ IH]; simpl.
  - destruct after; [done|]. by rewrite Hk.
  - rewrite IH. destruct (before ++ k :: after)%list eqn:Heq.
    + by destruct before.
    + by rewrite Hk0.
Qed.

(** When no candidate is true the last one is taken. *)
Lemma first_truthy_last (fast : gmap string pyval) (before : list string)
    (k : string) :
  Forall (λ k', truthy (dict_get fast k') = false) before →
  first_truthy fast (before ++ [k]) = dict_get fast k.
Proof.
  intros Hbefore. induction Hbefore as [|k0 before Hk0 _ IH]; simpl; [done|].
  rewrite IH. destruct (before ++ [k])%list eqn:Heq.
  - by destruct before.
  - by rewrite Hk0.
Qed.

(** C1, as the code has it. Every numeric field of the live snapshot is the
    coercion of the first true candidate of its chain (a value that is
    present, not zero and not empty), and of the last candidate when none is
    true; a true value earlier in a chain is preferred to any later
    candidate. *)
Theorem C1_first_truthy_candidate (fast : gmap string pyval) :
  Locals.close (live_fields fast) =
    as_float (first_truthy fast ["lastPrice"; "last_price"; "regularMarketPrice"]) ∧
  Locals.prev_close (live_fields fast) =
    as_float (first_truthy fast ["previousClose"; "previous_close"]) ∧
  Locals.volume (live_fields fast) =
    as_float (first_truthy fast ["lastVolume"; "last_volume"]) ∧
  Locals.market_cap (live_fields fast) =
    as_float (first_truthy fast ["marketCap"; "market_cap"]) ∧
  (∀ before k after,
     Forall (λ k', truthy (dict_get fast k') = false) before →
     truthy (dict_get fast k) = true →
     first_truthy fast (before ++ k :: after) = dict_get fast k) ∧
  (∀ before k,
     Forall (λ k', truthy (dict_get fast k') = false) before →
     first_truthy fast (before ++ [k]) = dict_get fast k).
Proof.
  split_and!; try reflexivity.
  - apply first_truthy_takes.
  - apply first_truthy_last.
Qed.

(** ** The historical fallback *)

Lemma dropna_filter (col : list pyval) :
  dropna col = filter (λ v, isna v = false) col.
Proof.
  unfold dropna. induction col as [|v col IH]; [done|].
  rewrite filter_cons. simpl. rewrite IH.
  destruct (isna v); simpl; by rewrite ?decide_True, ?decide_False by done.
Qed.

(** The guarded negative index of [parse_close_and_prev], read from the
    most recent end. *)
Lemma guarded_item_from_end (l : list pyval) (k : nat) :
  (if (S k <=? length l)%nat then as_float (item_from_end l (S k)) else None) =
  reverse l !! k ≫= as_float.
Proof.
  destruct (S k <=? length l)%nat eqn:Hk.
  - apply Nat.leb_le in Hk. rewrite reverse_lookup by lia.
    unfold item_from_end.
    destruct (lookup_lt_is_Some_2 l (length l - S k)) as [v Hv]; [lia|].
    by rewrite Hv.
  - apply Nat.leb_gt in Hk.
    rewrite (lookup_ge_None_2 (reverse l) k); [done|].
    rewrite length_reverse. lia.
Qed.

Lemma parse_close_and_prev_spec (hist : DataFrame) :
  index hist ≠ [] →
  parse_close_and_prev (Some hist) =
  (most_recent hist "Close" 0 ≫= as_float,
   most_recent hist "Close" 1 ≫= as_float,
   most_recent hist "Volume" 0 ≫= as_float).
Proof.
  intros Hindex. unfold parse_close_and_prev, most_recent.
  destruct (index hist) as [|i0 idx]; [done|]. cbn [length Nat.eqb].
  rewrite !guarded_item_from_end.
  destruct (columns hist !! "Close") as [closes|];
    destruct (columns hist !! "Volume") as [volumes|];
    cbn [default]; by rewrite ?dropna_filter.
Qed.

(** The fallback leaves the fields it has no value for as they were. *)
Lemma resolve_fields_untouched (ticker : TickerObj) (symbol : string) :
  let live := live_fields (read_fast ticker) in
  let after := (resolve_fields ticker symbol).1 in
  Locals.market_cap after = Locals.market_cap live ∧
  Locals.currency after = Locals.currency live ∧
  Locals.exchange after = Locals.exchange live.
Proof.
  cbv zeta. unfold resolve_fields.
  destruct (Locals.close (live_fields (read_fast ticker))); [done|].
  cbn [fst]. unfold history_fallback.
  destruct (history ticker) as [hist|]; [|done].
  by destruct (parse_close_and_prev hist) as [[h_close h_prev] h_vol].
Qed.

(** C3. When the live snapshot gives no price the daily history is asked
    for; of a history that has bars, the most recent close that is not
    missing becomes the price, the second most recent one the previous
    close and the most recent volume the volume (each through the numeric
    coercion), and only where the field is still absent: a previous close
    or a volume of the live snapshot stays, as do the market capitalisation,
    the currency and the exchange. *)
Theorem C3_history_fallback (ticker : TickerObj) (symbol : string)
    (hist : DataFrame) :
  let live := live_fields (read_fast ticker) in
  let after := (resolve_fields ticker symbol).1 in
  Locals.close live = None →
  history ticker = Ok (Some hist) →
  index hist ≠ [] →
  CallHistory symbol ∈ (resolve_fields ticker symbol).2 ∧
  Locals.close after = most_recent hist "Close" 0 ≫= as_float ∧
  Locals.prev_close after =
    match Locals.prev_close live with
    | Some prev => Some prev
    | None => most_recent hist "Close" 1 ≫= as_float
    end ∧
  Locals.volume after =
    match Locals.volume live with
    | Some vol => Some vol
    | None => most_recent hist "Volume" 0 ≫= as_float
    end ∧
  Locals.market_cap after = Locals.market_cap live ∧
  Locals.currency after = Locals.currency live ∧
  Locals.exchange after = Locals.exchange live.
Proof.
  intros live after Hclose Hhist Hindex.
  pose proof (resolve_fields_untouched ticker symbol) as Hrest.
  cbv zeta in Hrest. fold live after in Hrest.
  split_and!; try apply Hrest; subst after; unfold resolve_fields; fold live;
    clear Hrest; clearbody live; rewrite Hclose; cbn [fst snd].
  - apply list_elem_of_further, list_elem_of_here.
  - unfold history_fallback. rewrite Hhist, parse_close_and_prev_spec by done.
    cbn. by rewrite Hclose.
  - unfold history_fallback. rewrite Hhist, parse_close_and_prev_spec by done.
    cbn. by destruct (Locals.prev_close live).
  - unfold history_fallback. rewrite Hhist, parse_close_and_prev_spec by done.
    cbn. by destruct (Locals.volume live).
Qed.

(** ** The emitted record *)

Lemma resolve_symbol_Some (ticker : TickerObj) (sym : string) (q : Quote) :
  resolve_symbol ticker sym = Some q →
  symbol q = sym ∧
  price q = Locals.close (resolve_fields ticker sym).1 ∧
  is_Some (price q) ∧
  previousClose q = Locals.prev_close (resolve_fields ticker sym).1 ∧
  currency q = py_or (dict_get (read_fast ticker) "currency") (VStr "USD").
Proof.
  intros Hq. apply make_quote_Some in Hq as (c & Hc & ->). cbn.
  pose proof (resolve_fields_untouched ticker sym) as (_ & Hcur & _).
  rewrite Hcur. by split_and!.
Qed.

Lemma resolve_symbol_is_Some (ticker : TickerObj) (symbol : string) :
  is_Some (resolve_symbol ticker symbol) ↔
  is_Some (Locals.close (resolve_fields ticker symbol).1).
Proof.
  unfold resolve_symbol, make_quote.
  destruct (Locals.close (resolve_fields ticker symbol).1); [|done].
  split; eauto.
Qed.

(** C4. In every emitted record [changePct] is
    [((price - previousClose) / previousClose) * 100.0] when [previousClose]
    is present and greater than zero, and absent otherwise: absent for a
    [previousClose] of zero (of either sign) and for an absent one. A price
    of 110.0 over a previous close of 100.0 gives exactly 10.0. *)
Theorem C4_change_pct :
  (∀ ticker symbol q, resolve_symbol ticker symbol = Some q →
     ∃ p, price q = Some p ∧
       changePct q =
         match previousClose q with
         | Some prev =>
             if (0 <? prev)%float then Some ((p - prev) / prev * 100)%float
             else None
         | None => None
         end) ∧
  change_pct 110 (Some 100%float) = Some 10%float ∧
  (∀ p, change_pct p (Some 0%float) = None) ∧
  (∀ p, change_pct p (Some (-0)%float) = None) ∧
  (∀ p, change_pct p None = None).
Proof.
  split_and!; try done.
  intros ticker symbol q Hq. apply make_quote_Some in Hq as (c & Hc & ->).
  exists c. done.
Qed.

(** [changePct] is computed, not coerced: a price and a previous close that
    are both infinite give a NaN. *)
Remark change_pct_of_infinities :
  ∃ f, change_pct infinity (Some infinity) = Some f ∧ is_nan f = true.
Proof. by eexists. Qed.

(** C10. In every emitted record the currency is ["USD"] whenever the
    currency of the live snapshot is false as a Python value (absent, the
    empty string, a zero), and the snapshot's value otherwise; so it is
    never the empty string. *)
Theorem C10_currency_default (ticker : TickerObj) (symbol : string) (q : Quote) :
  resolve_symbol ticker symbol = Some q →
  let upstream := dict_get (read_fast ticker) "currency" in
  (truthy upstream = false → currency q = VStr "USD") ∧
  (upstream = VNone → currency q = VStr "USD") ∧
  (upstream = VStr EmptyString → currency q = VStr "USD") ∧
  (truthy upstream = true → currency q = upstream) ∧
  truthy (currency q) = true ∧
  currency q ≠ VStr EmptyString.
Proof.
  intros Hq upstream. apply resolve_symbol_Some in Hq as (_ & _ & _ & _ & Hcur).
  fold upstream in Hcur. rewrite Hcur. unfold py_or. clearbody upstream.
  split_and!.
  - by intros ->.
  - by intros ->.
  - by intros ->.
  - by intros ->.
  - by destruct (truthy upstream) eqn:Hu.
  - destruct (truthy upstream) eqn:Hu; [|done]. by intros ->.
Qed.

(** ** The request *)

(** One iteration: with a handle, the record of the symbol, if it has one,
    and its calls are appended; without one, the exception, after the call
    that raised. *)
Lemma loop_body_spec (yf : yfinance) (tickers : gmap string TickerObj)
    (st : State) (s : string) :
  loop_body yf tickers st s =
  match (get_ticker yf tickers s).1 with
  | Ok ticker =>
      (Ok {| payload := payload st ++ option_list (resolve_symbol ticker s);
             calls := calls st ++ symbol_calls yf tickers s |},
       (calls st ++ symbol_calls yf tickers s)%list)
  | Raise => (Raise, (calls st ++ symbol_calls yf tickers s)%list)
  end.
Proof.
  unfold loop_body, symbol_calls, resolve_symbol.
  destruct (get_ticker yf tickers s) as [[ticker|] made]; cbn [fst snd].
  - destruct (resolve_fields ticker s) as [loc made']. cbn [fst snd].
    destruct (make_quote s loc); cbn; by rewrite ?app_nil_r.
  - by rewrite app_nil_r.
Qed.

(** The record of a symbol, from the batch. *)
Lemma quote_of_batch (yf : yfinance) (symbols : list string)
    (tickers : gmap string TickerObj) (s : string) :
  yf_Tickers yf (PyStr.join " " symbols) = Ok tickers →
  quote_of yf symbols s =
  match (get_ticker yf tickers s).1 with
  | Ok ticker => resolve_symbol ticker s
  | Raise => None
  end.
Proof. intros Hbatch. unfold quote_of, ticker_of. by rewrite Hbatch. Qed.

(** The loop of [do_GET] from any state, when every symbol has a handle:
    every symbol adds its record, if it has one, and its calls, in the
    order of the list. *)
Lemma for_loop_ok (yf : yfinance) (tickers : gmap string TickerObj)
    (symbols : list string) :
  ∀ st : State,
    Forall (λ s, ∃ ticker, (get_ticker yf tickers s).1 = Ok ticker) symbols →
    for_loop yf tickers symbols st =
    (Ok {| payload :=
             payload st ++
             omap (λ s, match (get_ticker yf tickers s).1 with
                        | Ok ticker => resolve_symbol ticker s
                        | Raise => None
                        end) symbols;
           calls := calls st ++ concat (map (symbol_calls yf tickers) symbols) |},
     (calls st ++ concat (map (symbol_calls yf tickers) symbols))%list).
Proof.
  induction symbols as [|s symbols IH]; intros st Hall.
  - cbn. rewrite !app_nil_r. by destruct st.
  - inversion Hall as [|? ? [ticker Hs] Hrest]; subst.
    cbn [for_loop]. rewrite loop_body_spec, Hs, (IH _ Hrest).
    cbn [payload calls map concat omap list_omap]. rewrite Hs.
    rewrite <- !app_assoc.
    by destruct (resolve_symbol ticker s).
Qed.

(** The loop ends without an exception only when every symbol has a
    handle. *)
Lemma for_loop_Ok_inv (yf : yfinance) (tickers : gmap string TickerObj)
    (symbols : list string) :
  ∀ (st st' : State),
    (for_loop yf tickers symbols st).1 = Ok st' →
    Forall (λ s, ∃ ticker, (get_ticker yf tickers s).1 = Ok ticker) symbols.
Proof.
  induction symbols as [|s symbols IH]; intros st st' Hok; [constructor|].
  cbn [for_loop] in Hok. rewrite loop_body_spec in Hok.
  destruct (get_ticker yf tickers s).1 as [ticker|] eqn:Hs; [|done].
  constructor; [by exists ticker|]. by eapply IH.
Qed.

(** The loop never forgets a call, and makes at most three per symbol. *)
Lemma for_loop_calls (yf : yfinance) (tickers : gmap string TickerObj)
    (symbols : list string) :
  ∀ st : State,
    calls st `prefix_of` (for_loop yf tickers symbols st).2 ∧
    (length (for_loop yf tickers symbols st).2 ≤
     length (calls st) + 3 * length symbols)%nat.
Proof.
  assert (Hlen : ∀ s, (length (symbol_calls yf tickers s) ≤ 3)%nat).
  { intros s. unfold symbol_calls, get_ticker, resolve_fields.
    rewrite length_app.
    destruct (tickers !! s) as [ticker|]; cbn [fst snd];
      [|destruct (yf_Ticker yf s) as [ticker|]];
      try destruct (Locals.close _); cbn; lia. }
  induction symbols as [|s symbols IH]; intros st.
  - cbn. split; [done|lia].
  - cbn [for_loop]. rewrite loop_body_spec. specialize (Hlen s).
    destruct (get_ticker yf tickers s).1 as [ticker|].
    + destruct (IH {| payload := payload st ++ option_list (resolve_symbol ticker s);
                      calls := calls st ++ symbol_calls yf tickers s |})
        as [Hpre Hbound].
      cbn [calls] in Hpre, Hbound. rewrite length_app in Hbound. split.
      * etrans; [|exact Hpre]. by apply prefix_app_r.
      * cbn [length]. lia.
    + cbn [snd]. split; [by apply prefix_app_r|].
      rewrite length_app. cbn [length]. lia.
Qed.

Lemma omap_ext_all {A B : Type} (f g : A → option B) (l : list A) :
  (∀ x, f x = g x) → omap f l = omap g l.
Proof.
  intros Hfg. induction l as [|x l IH]; [done|]. cbn. by rewrite Hfg, IH.
Qed.

Lemma do_GET_nil (yf : yfinance) (params : gmap string (string * list string)) :
  symbols_of params = [] → do_GET yf params = (Ok missing_symbols_response, []).
Proof. intros Hs. unfold do_GET. fold (symbols_of params). by rewrite Hs. Qed.

(** With handles for every symbol the batch was made. *)
Lemma handles_ok_batch (yf : yfinance) (symbols : list string) :
  symbols ≠ [] → handles_ok yf symbols →
  ∃ tickers,
    yf_Tickers yf (PyStr.join " " symbols) = Ok tickers ∧
    Forall (λ s, ∃ ticker, (get_ticker yf tickers s).1 = Ok ticker) symbols.
Proof.
  intros Hne Hok. unfold handles_ok, ticker_of in Hok.
  destruct (yf_Tickers yf (PyStr.join " " symbols)) as [tickers|].
  - exists tickers. split; [done|]. by apply Forall_forall.
  - destruct symbols as [|s0 rest]; [done|].
    destruct (Hok s0) as [? ?]; [left|done].
Qed.

(** A request with symbols and handles: the response and the calls. *)
Lemma do_GET_ok (yf : yfinance) (params : gmap string (string * list string)) :
  symbols_of params ≠ [] → handles_ok yf (symbols_of params) →
  ∃ tickers,
    yf_Tickers yf (PyStr.join " " (symbols_of params)) = Ok tickers ∧
    do_GET yf params =
    (Ok (payload_response
           (omap (quote_of yf (symbols_of params)) (symbols_of params))),
     CallTickers (PyStr.join " " (symbols_of params)) ::
     concat (map (symbol_calls yf tickers) (symbols_of params))).
Proof.
  intros Hne Hok.
  destruct (handles_ok_batch yf _ Hne Hok) as (tickers & Hbatch & Hall).
  exists tickers. split; [done|].
  unfold do_GET. fold (symbols_of params).
  destruct (symbols_of params) as [|s0 rest] eqn:Hs; [done|].
  rewrite Hbatch, (for_loop_ok _ _ _ _ Hall). cbn [payload calls app].
  do 3 f_equal. apply omap_ext_all. intros s. symmetry.
  by apply quote_of_batch.
Qed.

(** A response to a request with symbols means every handle was
    obtained. *)
Lemma do_GET_Ok_inv (yf : yfinance) (params : gmap string (string * list string))
    (resp : Response) :
  symbols_of params ≠ [] → (do_GET yf params).1 = Ok resp →
  handles_ok yf (symbols_of params).
Proof.
  intros Hne Hresp. unfold do_GET in Hresp. fold (symbols_of params) in Hresp.
  unfold handles_ok, ticker_of.
  destruct (symbols_of params) as [|s0 rest] eqn:Hs; [done|].
  destruct (yf_Tickers yf (PyStr.join " " (s0 :: rest))) as [tickers|]; [|done].
  destruct (for_loop yf tickers (s0 :: rest) _) as [[st|] made] eqn:Hloop; [|done].
  assert (Hall := for_loop_Ok_inv yf tickers (s0 :: rest) _ st
                    ltac:(by rewrite Hloop)).
  by apply Forall_forall.
Qed.

(** The first call of a request with symbols is the batch. *)
Lemma do_GET_calls_head (yf : yfinance) (params : gmap string (string * list string)) :
  symbols_of params ≠ [] →
  ∃ rest, (do_GET yf params).2 =
          CallTickers (PyStr.join " " (symbols_of params)) :: rest.
Proof.
  intros Hne. unfold do_GET. fold (symbols_of params).
  destruct (symbols_of params) as [|s0 rest] eqn:Hs; [done|].
  destruct (yf_Tickers yf (PyStr.join " " (s0 :: rest))) as [tickers|];
    [|by eexists].
  pose proof (for_loop_calls yf tickers (s0 :: rest)
                {| payload := []; calls := [CallTickers (PyStr.join " " (s0 :: rest))] |})
    as [[more Hpre] _].
  cbn [calls] in Hpre.
  destruct (for_loop yf tickers (s0 :: rest) _) as [[st|] made];
    cbn [snd] in *; rewrite Hpre; by eexists.
Qed.

(** The symbols of the records of a payload are the symbols that have a
    price, in the order of the list. *)
Lemma payload_symbols (f : string → option Quote) (symbols : list string) :
  (∀ s q, f s = Some q → symbol q = s) →
  symbol <$> omap f symbols = filter (λ s, is_Some (f s)) symbols.
Proof.
  intros Hf. induction symbols as [|s symbols IH]; [done|].
  rewrite filter_cons. cbn. destruct (f s) as [q|] eqn:Hq.
  - rewrite decide_True by eauto. cbn. by rewrite IH, (Hf s q Hq).
  - rewrite decide_False by (by intros [? ?]). done.
Qed.

Lemma quote_of_Some (yf : yfinance) (symbols : list string) (s : string)
    (q : Quote) :
  quote_of yf symbols s = Some q →
  symbol q = s ∧ is_Some (price q) ∧ price q = resolved_price yf symbols s ∧
  name q = symbol q ∧ averageVolume q = None ∧ high24h q = None ∧
  low24h q = None.
Proof.
  unfold quote_of, resolved_price.
  destruct (ticker_of yf symbols s) as [ticker|]; [|done].
  intros Hq. apply make_quote_Some in Hq as (c & Hc & ->). cbn.
  by split_and!.
Qed.

Lemma quote_of_is_Some (yf : yfinance) (symbols : list string) (s : string) :
  is_Some (quote_of yf symbols s) ↔ is_Some (resolved_price yf symbols s).
Proof.
  unfold quote_of, resolved_price.
  destruct (ticker_of yf symbols s) as [ticker|]; [|done].
  apply resolve_symbol_is_Some.
Qed.

(** The records of a response to a request with symbols. *)
Lemma do_GET_records (yf : yfinance) (params : gmap string (string * list string))
    (resp : Response) :
  (do_GET yf params).1 = Ok resp →
  response_payload resp =
  omap (quote_of yf (symbols_of params)) (symbols_of params).
Proof.
  intros Hresp. destruct (decide (symbols_of params = [])) as [Hnil|Hne].
  - rewrite do_GET_nil in Hresp by done. injection Hresp as <-.
    by rewrite Hnil.
  - pose proof (do_GET_Ok_inv yf params resp Hne Hresp) as Hok.
    destruct (do_GET_ok yf params Hne Hok) as (tickers & _ & Hget).
    rewrite Hget in Hresp. by injection Hresp as <-.
Qed.

(** What a response can be. *)
Lemma do_GET_cases (yf : yfinance) (params : gmap string (string * list string))
    (resp : Response) :
  (do_GET yf params).1 = Ok resp →
  (symbols_of params = [] ∧ resp = missing_symbols_response) ∨
  (symbols_of params ≠ [] ∧ ∃ records, resp = payload_response records).
Proof.
  intros Hresp. destruct (decide (symbols_of params = [])) as [Hnil|Hne].
  - left. split; [done|]. rewrite do_GET_nil in Hresp by done.
    by injection Hresp as <-.
  - right. split; [done|].
    pose proof (do_GET_Ok_inv yf params resp Hne Hresp) as Hok.
    destruct (do_GET_ok yf params Hne Hok) as (tickers & _ & Hget).
    rewrite Hget in Hresp. injection Hresp as <-. by eexists.
Qed.


(** C6. A request whose symbol list is empty is answered with status 400,
    the JSON content type and the body [{"error": "missing_symbols"}],
    and no call to the client is made; every other response has status
    200. A missing, an empty and a blank [symbols] parameter, and one of
    commas and blanks only, give the empty list. *)
Theorem C6_missing_symbols :
  (∀ yf params, symbols_of params = [] →
     do_GET yf params =
       (Ok {| status := 400;
              headers := [("Content-Type", "application/json; charset=utf-8")];
              body := ErrorBody [("error", "missing_symbols")] |}, [])) ∧
  (∀ yf params, symbols_of params ≠ [] →
     (∀ resp, (do_GET yf params).1 = Ok resp → status resp = 200) ∧
     (do_GET yf params).2 ≠ []) ∧
  symbols_of ∅ = [] ∧
  symbols_of {[ "symbols" := (EmptyString, []) ]} = [] ∧
  symbols_of {[ "symbols" := ("   ", []) ]} = [] ∧
  symbols_of {[ "symbols" := (" , ,, ", []) ]} = [].
Proof.
  split_and!.
  - intros yf params Hs. by apply do_GET_nil.
  - intros yf params Hs. split.
    + intros resp Hresp.
      pose proof (do_GET_Ok_inv yf params resp Hs Hresp) as Hok.
      destruct (do_GET_ok yf params Hs Hok) as (tickers & _ & Hget).
      rewrite Hget in Hresp. by injection Hresp as <-.
    + destruct (do_GET_calls_head yf params Hs) as [rest ->]. done.
  - by vm_compute.
  - by vm_compute.
  - by vm_compute.
  - by vm_compute.
Qed.

(** ** Failures of the client *)

Lemma read_fast_quiet (ticker : TickerObj) :
  read_fast (quiet ticker) = read_fast ticker.
Proof. unfold read_fast, quiet. cbn. by destruct (fast_info ticker) as [[?|]|]. Qed.

Lemma if_none_None (x : option float) : if_none x None = x.
Proof. by destruct x. Qed.

Lemma history_fallback_quiet (ticker : TickerObj) (loc : Locals.t) :
  history_fallback (quiet ticker) loc = history_fallback ticker loc.
Proof.
  unfold history_fallback, quiet. cbn.
  destruct (history ticker) as [hist|]; [done|].
  cbn. rewrite !if_none_None. by destruct loc.
Qed.

Lemma resolve_fields_quiet (ticker : TickerObj) (s : string) :
  resolve_fields (quiet ticker) s = resolve_fields ticker s.
Proof.
  unfold resolve_fields. by rewrite read_fast_quiet, history_fallback_quiet.
Qed.

Lemma loop_body_quiet (yf : yfinance) (tickers : gmap string TickerObj)
    (st : State) (s : string) :
  loop_body (quiet_client yf) (quiet <$> tickers) st s =
  loop_body yf tickers st s.
Proof.
  unfold loop_body, get_ticker. rewrite lookup_fmap.
  destruct (tickers !! s) as [ticker|]; cbn.
  - by rewrite resolve_fields_quiet.
  - destruct (yf_Ticker yf s) as [ticker|]; [|done].
    by rewrite resolve_fields_quiet.
Qed.

Lemma for_loop_quiet (yf : yfinance) (tickers : gmap string TickerObj)
    (symbols : list string) :
  ∀ st : State,
    for_loop (quiet_client yf) (quiet <$> tickers) symbols st =
    for_loop yf tickers symbols st.
Proof.
  induction symbols as [|s symbols IH]; intros st; [done|].
  cbn [for_loop]. rewrite loop_body_quiet.
  destruct (loop_body yf tickers st s) as [[st'|] made]; [apply IH|done].
Qed.

Lemma do_GET_quiet (yf : yfinance) (params : gmap string (string * list string)) :
  do_GET (quiet_client yf) params = do_GET yf params.
Proof.
  unfold do_GET.
  destruct (request_symbols (raw_symbols params)) as [|s0 rest]; [done|].
  cbn [yf_Tickers quiet_client].
  destruct (yf_Tickers yf (PyStr.join " " (s0 :: rest))) as [tickers|]; [|done].
  by rewrite for_loop_quiet.
Qed.

(** C8, as the code has it. A failure while the live snapshot is read
    counts as an empty snapshot, a failure while the history is fetched as
    no history: the outcome and the calls of a request are those of the same
    request with every such failure replaced by an empty answer. When the
    handles of the request are obtained, a request with symbols is answered
    with status 200 whatever fails in the two accessors, and every symbol of
    the list is processed. *)
Theorem C8_upstream_failures_isolated (yf : yfinance)
    (params : gmap string (string * list string)) :
  (∀ hist s,
     resolve_fields {| fast_info := Raise; history := hist |} s =
     resolve_fields {| fast_info := Ok (Some ∅); history := hist |} s) ∧
  (∀ info s,
     resolve_fields {| fast_info := info; history := Raise |} s =
     resolve_fields {| fast_info := info; history := Ok None |} s) ∧
  do_GET yf params = do_GET (quiet_client yf) params ∧
  (symbols_of params ≠ [] → handles_ok yf (symbols_of params) →
     (∃ resp, (do_GET yf params).1 = Ok resp ∧ status resp = 200) ∧
     ∀ s, s ∈ symbols_of params → ReadFastInfo s ∈ (do_GET yf params).2).
Proof.
  split_and!.
  - done.
  - intros info s. unfold resolve_fields, read_fast, history_fallback.
    cbn [fast_info history].
    set (live := live_fields _). clearbody live.
    destruct (Locals.close live) eqn:Hclose; [done|].
    destruct live. cbn in Hclose |- *. by rewrite Hclose, !if_none_None.
  - by rewrite do_GET_quiet.
  - intros Hne Hok.
    destruct (handles_ok_batch yf _ Hne Hok) as (tickers' & Hbatch' & Hall).
    destruct (do_GET_ok yf params Hne Hok) as (tickers & Hbatch & ->).
    assert (tickers' = tickers) as -> by congruence.
    split; [by eexists|].
    intros s Hs. cbn [snd]. apply list_elem_of_further.
    apply list_elem_of_In, in_concat. eexists. split.
    + apply in_map, list_elem_of_In, Hs.
    + rewrite Forall_forall in Hall. destruct (Hall s Hs) as [ticker Hticker].
      unfold symbol_calls, resolve_fields. rewrite Hticker.
      apply in_or_app. right.
      destruct (Locals.close _); left; done.
Qed.

(** ** More on the response *)

(** X9. A request makes at most one call for the batch and three per
    symbol (a handle, the live snapshot, the history), never more than 661
    calls, whether it is answered or ends in an exception; it makes no call
    at all exactly when it has no symbols. *)
Theorem calls_bound (yf : yfinance) (params : gmap string (string * list string)) :
  (length (do_GET yf params).2 ≤ 1 + 3 * length (symbols_of params))%nat ∧
  (length (do_GET yf params).2 ≤ 661)%nat ∧
  ((do_GET yf params).2 = [] ↔ symbols_of params = []).
Proof.
  assert (H : (length (do_GET yf params).2 ≤ 1 + 3 * length (symbols_of params))%nat).
  { unfold do_GET. fold (symbols_of params).
    destruct (symbols_of params) as [|s0 rest]; [cbn; lia|].
    destruct (yf_Tickers yf (PyStr.join " " (s0 :: rest))) as [tickers|];
      [|cbn; lia].
    pose proof (for_loop_calls yf tickers (s0 :: rest)
                  {| payload := [];
                     calls := [CallTickers (PyStr.join " " (s0 :: rest))] |})
      as [_ Hbound].
    cbn [calls length] in Hbound.
    by destruct (for_loop yf tickers (s0 :: rest) _) as [[st|] made]. }
  split_and!; [exact H| |].
  - assert (length (symbols_of params) ≤ 220)%nat; [|lia].
    unfold symbols_of, request_symbols, MAX_SYMBOLS. rewrite length_take. lia.
  - split.
    + intros Hnil. destruct (decide (symbols_of params = [])) as [|Hne]; [done|].
      destruct (do_GET_calls_head yf params Hne) as [rest Hrest].
      by rewrite Hrest in Hnil.
    + intros Hs. by rewrite do_GET_nil.
Qed.

Lemma elem_of_symbol_calls (yf : yfinance) (tickers : gmap string TickerObj)
    (s : string) (ticker : TickerObj) (c : call) :
  (get_ticker yf tickers s).1 = Ok ticker →
  c ∈ symbol_calls yf tickers s ↔
  (c = CallTicker s ∧ tickers !! s = None) ∨
  c = ReadFastInfo s ∨
  (c = CallHistory s ∧ Locals.close (live_fields (read_fast ticker)) = None).
Proof.
  unfold symbol_calls, resolve_fields, get_ticker.
  destruct (tickers !! s) as [ticker'|]; cbn [fst snd]; intros Hticker;
    [injection Hticker as ->|rewrite Hticker];
    destruct (Locals.close _) eqn:Hclose;
    cbn [snd]; rewrite ?elem_of_app, ?elem_of_cons, ?elem_of_nil;
    intuition (auto; congruence).
Qed.

Lemma elem_of_calls (symbols : list string) (f : string → list call)
    (first c : call) :
  c ∈ first :: concat (map f symbols) ↔
  c = first ∨ ∃ s, s ∈ symbols ∧ c ∈ f s.
Proof.
  rewrite elem_of_cons, list_elem_of_In, in_concat. split.
  - intros [->|(l & (s & <- & Hs)%in_map_iff & Hc)]; [by left|].
    right. exists s. by rewrite !list_elem_of_In.
  - intros [->|(s & Hs & Hc)]; [by left|]. right.
    eexists. split; [apply in_map, list_elem_of_In, Hs|].
    by apply list_elem_of_In.
Qed.

(** X10. In a request that is answered, the live snapshot is read exactly
    for the requested symbols; the history of a symbol is asked for exactly
    when the symbol is requested and its live snapshot gives no price; a
    handle of its own is made exactly when the symbol is requested and the
    batch has none for it. *)
Theorem calls_made (yf : yfinance) (params : gmap string (string * list string))
    (resp : Response) (s : string) :
  (do_GET yf params).1 = Ok resp →
  (ReadFastInfo s ∈ (do_GET yf params).2 ↔ s ∈ symbols_of params) ∧
  (CallHistory s ∈ (do_GET yf params).2 ↔
   s ∈ symbols_of params ∧
   ∃ ticker, ticker_of yf (symbols_of params) s = Ok ticker ∧
             Locals.close (live_fields (read_fast ticker)) = None) ∧
  (CallTicker s ∈ (do_GET yf params).2 ↔
   s ∈ symbols_of params ∧
   ∃ tickers, yf_Tickers yf (PyStr.join " " (symbols_of params)) = Ok tickers ∧
              tickers !! s = None).
Proof.
  intros Hresp. destruct (decide (symbols_of params = [])) as [Hnil|Hne].
  { rewrite do_GET_nil by done. rewrite Hnil. cbn [snd].
    split_and!; split; try (by intros ?%elem_of_nil);
      by intros [?%elem_of_nil _]. }
  pose proof (do_GET_Ok_inv yf params resp Hne Hresp) as Hok.
  destruct (handles_ok_batch yf _ Hne Hok) as (tickers' & Hbatch' & Hall).
  destruct (do_GET_ok yf params Hne Hok) as (tickers & Hbatch & ->).
  assert (tickers' = tickers) as -> by congruence. clear Hbatch'.
  rewrite Forall_forall in Hall. cbn [snd]. unfold ticker_of. rewrite Hbatch.
  split_and!; rewrite elem_of_calls; split.
  - intros [?|(s' & Hs & Hc)]; [done|]. destruct (Hall s' Hs) as [t Ht].
    apply (elem_of_symbol_calls _ _ _ _ _ Ht) in Hc.
    destruct Hc as [[Hc _]|[Hc|[Hc _]]]; try discriminate.
    injection Hc as Heq. by rewrite Heq.
  - intros Hs. right. exists s. split; [done|]. destruct (Hall s Hs) as [t Ht].
    apply (elem_of_symbol_calls _ _ _ _ _ Ht). auto.
  - intros [?|(s' & Hs & Hc)]; [done|]. destruct (Hall s' Hs) as [t Ht].
    apply (elem_of_symbol_calls _ _ _ _ _ Ht) in Hc.
    destruct Hc as [[Hc _]|[Hc|[Hc Hclose]]]; try discriminate.
    injection Hc as Heq. rewrite Heq. eauto.
  - intros (Hs & t & Ht & Hc). right. exists s. split; [done|].
    apply (elem_of_symbol_calls _ _ _ _ _ Ht). auto.
  - intros [?|(s' & Hs & Hc)]; [done|]. destruct (Hall s' Hs) as [t Ht].
    apply (elem_of_symbol_calls _ _ _ _ _ Ht) in Hc.
    destruct Hc as [[Hc Hnone]|[Hc|[Hc _]]]; try discriminate.
    injection Hc as Heq. rewrite Heq. eauto.
  - intros (Hs & tickers0 & [= <-] & Hc). right. exists s. split; [done|].
    destruct (Hall s Hs) as [t Ht].
    apply (elem_of_symbol_calls _ _ _ _ _ Ht). auto.
Qed.

(** X11. The payload of a response is empty exactly when no requested
    symbol has a price after the live snapshot and the fallback (in
    particular for a request without symbols). *)
Theorem payload_empty_iff (yf : yfinance)
    (params : gmap string (string * list string)) (resp : Response) :
  (do_GET yf params).1 = Ok resp →
  response_payload resp = [] ↔
  ∀ s, s ∈ symbols_of params → resolved_price yf (symbols_of params) s = None.
Proof.
  intros Hresp. rewrite (do_GET_records yf params resp Hresp).
  set (f := quote_of yf (symbols_of params)).
  split.
  - intros Hnil s Hs.
    destruct (resolved_price yf (symbols_of params) s) as [c|] eqn:Hc; [|done].
    assert (is_Some (f s)) as [q Hq]
      by (apply quote_of_is_Some; by rewrite Hc).
    assert (Hin : q ∈ omap f (symbols_of params))
      by (apply list_elem_of_omap; eauto).
    rewrite Hnil in Hin. by apply elem_of_nil in Hin.
  - intros Hall. destruct (omap f (symbols_of params)) as [|q l] eqn:Hl; [done|].
    assert (Hq : q ∈ omap f (symbols_of params)) by (rewrite Hl; left).
    apply list_elem_of_omap in Hq as (s & Hs & Hq).
    assert (His : is_Some (f s)) by eauto.
    apply quote_of_is_Some in His as [c Hc].
    by rewrite (Hall s Hs) in Hc.
Qed.

(** ** More on the fields *)

(** X12. Coercing is idempotent: a number that [as_float] returned is
    returned again when it is coerced once more. *)
Theorem as_float_idempotent (v : pyval) :
  as_float v ≫= (λ f, as_float (VFloat f)) = as_float v.
Proof.
  destruct (as_float v) as [f|] eqn:Hv; [|done].
  change (as_float (VFloat f) = Some f).
  apply as_float_Some in Hv as [_ Hnan]. by apply as_float_Some.
Qed.

Lemma dropna_idem (col : list pyval) : dropna (dropna col) = dropna col.
Proof.
  unfold dropna. induction col as [|v col IH]; [done|]. cbn.
  destruct (isna v) eqn:Hv; cbn; [done|]. by rewrite Hv, IH.
Qed.

(** X13. Missing cells never change what [parse_close_and_prev] returns:
    the frame and the frame with the missing cells of every column removed
    give the same close, previous close and volume. *)
Theorem parse_close_and_prev_dropna (hist : DataFrame) :
  parse_close_and_prev
    (Some {| index := index hist; columns := dropna <$> columns hist |}) =
  parse_close_and_prev (Some hist).
Proof.
  unfold parse_close_and_prev. cbn [index columns].
  destruct (length (index hist) =? 0)%nat; [done|].
  rewrite !lookup_fmap.
  destruct (columns hist !! "Close") as [closes|];
    destruct (columns hist !! "Volume") as [volumes|];
    cbn [fmap option_fmap option_map]; by rewrite ?dropna_idem.
Qed.

(** X14. When the live snapshot has a price the history plays no part: it
    is not asked for, and the previous close and the volume of the record
    are those of the live snapshot, absent if the snapshot has none. *)
Theorem live_price_ignores_history (ticker : TickerObj) (s : string) (c : float) :
  Locals.close (live_fields (read_fast ticker)) = Some c →
  resolve_fields ticker s = (live_fields (read_fast ticker), [ReadFastInfo s]) ∧
  ∀ hist,
    resolve_symbol {| fast_info := fast_info ticker; history := hist |} s =
    resolve_symbol ticker s.
Proof.
  intros Hc. unfold resolve_symbol, resolve_fields, read_fast in *.
  cbn [fast_info]. by rewrite Hc.
Qed.

(** X15. [parse_close_and_prev] returns a close only from a frame with
    bars and a close that is not missing, a previous close only when two
    closes are not missing, and a volume only when a volume is not
    missing. *)
Theorem parse_close_and_prev_needs (hist : option DataFrame) :
  let closes h := dropna (default [] (columns h !! "Close")) in
  let volumes h := dropna (default [] (columns h !! "Volume")) in
  (is_Some (parse_close_and_prev hist).1.1 →
   ∃ h, hist = Some h ∧ index h ≠ [] ∧ (1 ≤ length (closes h))%nat) ∧
  (is_Some (parse_close_and_prev hist).1.2 →
   ∃ h, hist = Some h ∧ index h ≠ [] ∧ (2 ≤ length (closes h))%nat) ∧
  (is_Some (parse_close_and_prev hist).2 →
   ∃ h, hist = Some h ∧ index h ≠ [] ∧ (1 ≤ length (volumes h))%nat).
Proof.
  cbv zeta. unfold parse_close_and_prev.
  destruct hist as [h|]; [|by split_and!; intros [? ?]].
  destruct (index h) as [|i0 idx] eqn:Hidx; [by split_and!; intros [? ?]|].
  cbn [length Nat.eqb fst snd].
  assert (Hcol : ∀ name,
    match columns h !! name with Some col => dropna col | None => [] end =
    dropna (default [] (columns h !! name)))
    by (intros name; by destruct (columns h !! name)).
  rewrite !Hcol. split_and!.
  - destruct (1 <=? _)%nat eqn:Hlen; [|by intros [? ?]].
    intros _. exists h. split_and!; [done|congruence|by apply Nat.leb_le].
  - destruct (2 <=? _)%nat eqn:Hlen; [|by intros [? ?]].
    intros _. exists h. split_and!; [done|congruence|by apply Nat.leb_le].
  - destruct (1 <=? length (dropna (default [] (columns h !! "Volume"))))%nat
      eqn:Hlen; [|by intros [? ?]].
    intros _. exists h. split_and!; [done|congruence|by apply Nat.leb_le].
Qed.

End Handler.

(** ** The properties on the sample data *)

(** C1 as stated, on a snapshot whose [lastPrice] is a present zero and
    whose [regularMarketPrice] is 5: the first candidate that is not absent
    is the zero, and the handler takes the 5. *)
Lemma C1_zero_is_passed_over :
  first_present Sample.fast_zero_price
    ["lastPrice"; "last_price"; "regularMarketPrice"] = VFloat 0 ∧
  as_float Sample.float_of_str
    (first_present Sample.fast_zero_price
       ["lastPrice"; "last_price"; "regularMarketPrice"]) = Some 0%float ∧
  Locals.close (live_fields Sample.float_of_str Sample.fast_zero_price) =
    Some 5%float ∧
  Locals.close (live_fields Sample.float_of_str Sample.fast_zero_price) ≠
    as_float Sample.float_of_str
      (first_present Sample.fast_zero_price
         ["lastPrice"; "last_price"; "regularMarketPrice"]).
Proof.
  split_and!; [by vm_compute|by vm_compute|by vm_compute|].
  vm_compute. discriminate.
Qed.

(** C1, amended, on the same snapshot: the zero of [lastPrice] is false,
    [last_price] is missing, and [regularMarketPrice] is taken. *)
Lemma C1_first_truthy_candidate_witness :
  Forall (λ k, truthy (dict_get Sample.fast_zero_price k) = false)
    ["lastPrice"; "last_price"] ∧
  truthy (dict_get Sample.fast_zero_price "regularMarketPrice") = true ∧
  first_truthy Sample.fast_zero_price
    (["lastPrice"; "last_price"] ++ "regularMarketPrice" :: []) =
  dict_get Sample.fast_zero_price "regularMarketPrice".
Proof.
  assert (H1 : Forall (λ k, truthy (dict_get Sample.fast_zero_price k) = false)
                 ["lastPrice"; "last_price"])
    by (repeat constructor).
  assert (H2 : truthy (dict_get Sample.fast_zero_price "regularMarketPrice") = true)
    by reflexivity.
  split_and!; [exact H1|exact H2|].
  exact (proj1 (proj2 (proj2 (proj2 (proj2
           (C1_first_truthy_candidate Sample.float_of_str Sample.fast_zero_price)))))
           ["lastPrice"; "last_price"] "regularMarketPrice" [] H1 H2).
Defined.

(** The sample client hands out a handle for every symbol. *)
Lemma sample_client_handles (symbols : list string) :
  handles_ok Sample.client symbols.
Proof.
  intros s _. unfold ticker_of, get_ticker. cbn [yf_Tickers yf_Ticker Sample.client].
  destruct (_ !! s) as [ticker|]; by eexists.
Qed.


(** C3 on a ticker without live data and with two daily bars, closes 98.0
    and 101.0 and volumes 1000 and 1200: the price is 101.0, the previous
    close 98.0 and the volume 1200.0. *)
Lemma C3_history_fallback_witness :
  Locals.close
    (live_fields Sample.float_of_str (read_fast Sample.ticker_history_only)) = None ∧
  history Sample.ticker_history_only = Ok (Some Sample.bars_98_101) ∧
  index Sample.bars_98_101 ≠ [] ∧
  CallHistory "AAPL" ∈
    (resolve_fields Sample.float_of_str Sample.ticker_history_only "AAPL").2 ∧
  Locals.close
    (resolve_fields Sample.float_of_str Sample.ticker_history_only "AAPL").1 =
    Some 101%float ∧
  Locals.prev_close
    (resolve_fields Sample.float_of_str Sample.ticker_history_only "AAPL").1 =
    Some 98%float ∧
  Locals.volume
    (resolve_fields Sample.float_of_str Sample.ticker_history_only "AAPL").1 =
    Some 1200%float.
Proof.
  assert (Hindex : index Sample.bars_98_101 ≠ []) by discriminate.
  destruct (C3_history_fallback Sample.float_of_str Sample.ticker_history_only
              "AAPL" Sample.bars_98_101 eq_refl eq_refl Hindex)
    as (Hcall & Hclose & Hprev & Hvol & _).
  split_and!; [reflexivity|reflexivity|exact Hindex|exact Hcall|..].
  - rewrite Hclose. by vm_compute.
  - rewrite Hprev. by vm_compute.
  - rewrite Hvol. by vm_compute.
Defined.

(** C4 on a ticker with a live price of 110.0 and a previous close of
    100.0. *)
Lemma C4_change_pct_witness :
  ∃ q, resolve_symbol Sample.float_of_str Sample.ticker_live "MSFT" = Some q ∧
    price q = Some 110%float ∧
    previousClose q = Some 100%float ∧
    changePct q = Some 10%float.
Proof.
  eexists. split; [reflexivity|].
  destruct (proj1 (C4_change_pct Sample.float_of_str) Sample.ticker_live "MSFT"
              _ eq_refl) as (p & Hp & Hpct).
  vm_compute in Hp. injection Hp as <-.
  split_and!; [reflexivity|reflexivity|].
  rewrite Hpct. by vm_compute.
Defined.

(** C6 on a request whose [symbols] parameter holds a comma between
    blanks. *)
Lemma C6_missing_symbols_witness :
  symbols_of Sample.params_blank = [] ∧
  do_GET Sample.float_of_str Sample.client Sample.params_blank =
    (Ok {| status := 400;
           headers := [("Content-Type", "application/json; charset=utf-8")];
           body := ErrorBody [("error", "missing_symbols")] |}, []).
Proof.
  assert (Hs : symbols_of Sample.params_blank = []) by (by vm_compute).
  split; [exact Hs|].
  exact (proj1 (C6_missing_symbols Sample.float_of_str) Sample.client
           Sample.params_blank Hs).
Defined.

(** C7 as stated, on a live price of 100.0 over a previous close of
    infinity: both pass the coercion, and the [changePct] computed from
    them is a NaN in the record. *)
Lemma C7_change_pct_is_nan :
  ∃ (q : Quote) (f : float),
    resolve_symbol Sample.float_of_str Sample.ticker_infinite_previous_close
      "X" = Some q ∧
    price q = Some 100%float ∧
    previousClose q = Some infinity ∧
    changePct q = Some f ∧
    is_nan f = true.
Proof. do 2 eexists. split_and!; by vm_compute. Qed.

(** C7 on the record of the ticker with live data: no coerced field is a
    NaN. *)
Lemma C7_numeric_coercion_witness :
  ∃ q, resolve_symbol Sample.float_of_str Sample.ticker_live "MSFT" = Some q ∧
    not_nan (price q) ∧ not_nan (previousClose q) ∧
    not_nan (volume q) ∧ not_nan (marketCap q).
Proof.
  eexists. split; [reflexivity|].
  exact (proj2 (proj2 (proj2 (proj2 (proj2 (proj2
           (C7_numeric_coercion Sample.float_of_str))))))
           Sample.ticker_live "MSFT" _ eq_refl).
Defined.

(** C8 as stated, on the sample request with a client whose [yf.Ticker]
    raises: GOOG is not in the batch, the exception of its handle leaves
    [do_GET], no response is written and MSFT is never processed. *)
Lemma C8_handle_failure_aborts :
  symbols_of Sample.params_three = ["AAPL"; "GOOG"; "MSFT"] ∧
  yf_Ticker Sample.client_no_handle "GOOG" = Raise ∧
  do_GET Sample.float_of_str Sample.client_no_handle Sample.params_three =
    (Raise,
     [CallTickers "AAPL GOOG MSFT"; ReadFastInfo "AAPL"; CallHistory "AAPL";
      CallTicker "GOOG"]).
Proof. split_and!; by vm_compute. Qed.

(** C8, amended, on the sample request, where the live snapshot of AAPL
    and both calls for GOOG fail: status 200, and all three symbols are
    processed. *)
Lemma C8_upstream_failures_isolated_witness :
  symbols_of Sample.params_three ≠ [] ∧
  handles_ok Sample.client (symbols_of Sample.params_three) ∧
  (∃ resp,
     (do_GET Sample.float_of_str Sample.client Sample.params_three).1 = Ok resp ∧
     status resp = 200) ∧
  ∀ s, s ∈ symbols_of Sample.params_three →
       ReadFastInfo s ∈
         (do_GET Sample.float_of_str Sample.client Sample.params_three).2.
Proof.
  assert (Hne : symbols_of Sample.params_three ≠ []) by (by vm_compute).
  split; [exact Hne|]. split; [apply sample_client_handles|].
  exact (proj2 (proj2 (proj2
           (C8_upstream_failures_isolated Sample.float_of_str Sample.client
              Sample.params_three))) Hne (sample_client_handles _)).
Defined.

(** C9 on the float infinity: it converts to itself and is kept. *)
Lemma C9_infinity_not_folded_witness :
  py_float Sample.float_of_str (VFloat infinity) = Ok infinity ∧
  as_float Sample.float_of_str (VFloat infinity) = Some infinity.
Proof.
  split; [reflexivity|].
  exact (proj1 (proj2 (C9_infinity_not_folded Sample.float_of_str))
           (VFloat infinity) eq_refl).
Defined.

(** C10 on the ticker with live data, whose currency is the empty string:
    the record says ["USD"]. *)
Lemma C10_currency_default_witness :
  ∃ q, resolve_symbol Sample.float_of_str Sample.ticker_live "MSFT" = Some q ∧
    dict_get (read_fast Sample.ticker_live) "currency" = VStr EmptyString ∧
    currency q = VStr "USD".
Proof.
  eexists. split; [reflexivity|]. split; [reflexivity|].
  exact (proj1 (proj2 (proj2
           (C10_currency_default Sample.float_of_str Sample.ticker_live "MSFT"
              _ eq_refl))) eq_refl).
Defined.


(** ** More on the symbol list *)

Lemma unique_symbols_spec (raw : string) :
  unique_symbols raw =
  keep_first
    (filter (λ s, s ≠ EmptyString)
       (map (λ token, PyStr.upper (PyStr.strip token)) (PyStr.split "," raw))).
Proof.
  unfold unique_symbols.
  rewrite (unique_symbols_loop_spec Sample.float_of_str), app_nil_l.
  apply filter_all. intros x. apply not_elem_of_empty.
Qed.

Lemma elem_of_keep_first (l : list string) (x : string) :
  x ∈ keep_first l ↔ x ∈ l.
Proof.
  induction l as [|a l IH]; [done|]. cbn [keep_first].
  rewrite !elem_of_cons, list_elem_of_filter, IH.
  destruct (decide (x = a)); tauto.
Qed.

Lemma NoDup_keep_first (l : list string) : NoDup (keep_first l).
Proof.
  induction l as [|a l IH]; [constructor|]. cbn [keep_first].
  constructor; [|by apply NoDup_filter].
  rewrite list_elem_of_filter. tauto.
Qed.

Lemma filter_all_in {A : Type} (P : A → Prop) `{!∀ x, Decision (P x)}
    (l : list A) :
  (∀ x, x ∈ l → P x) → filter P l = l.
Proof.
  induction l as [|a l IH]; intros HP; [done|].
  rewrite filter_cons, decide_True by (apply HP; left).
  rewrite IH; [done|]. intros x Hx. apply HP. by right.
Qed.

Lemma keep_first_NoDup (l : list string) : NoDup l → keep_first l = l.
Proof.
  induction 1 as [|a l Ha _ IH]; [done|]. cbn [keep_first]. rewrite IH.
  f_equal. apply filter_all_in. intros x Hx ->. done.
Qed.

Lemma NoDup_unique_symbols (raw : string) : NoDup (unique_symbols raw).
Proof. rewrite unique_symbols_spec. apply NoDup_keep_first. Qed.

Lemma NoDup_request_symbols (raw : string) : NoDup (request_symbols raw).
Proof.
  unfold request_symbols.
  eapply sublist_NoDup; [apply NoDup_unique_symbols|apply sublist_take].
Qed.

Lemma elem_of_unique_symbols (raw s : string) :
  s ∈ unique_symbols raw ↔
  s ≠ EmptyString ∧
  ∃ token, token ∈ PyStr.split "," raw ∧ s = PyStr.upper (PyStr.strip token).
Proof.
  rewrite unique_symbols_spec, elem_of_keep_first, list_elem_of_filter.
  rewrite list_elem_of_In, in_map_iff. split.
  - intros (Hne & token & <- & Hin). split; [done|].
    exists token. by rewrite list_elem_of_In.
  - intros (Hne & token & Hin & ->). split; [done|].
    exists token. by rewrite <- list_elem_of_In.
Qed.

(** X1. [unique_symbols] never returns a symbol twice, and neither does the
    truncated list of the handler. *)
Theorem unique_symbols_distinct (raw : string) :
  NoDup (unique_symbols raw) ∧ NoDup (request_symbols raw).
Proof. split; [apply NoDup_unique_symbols|apply NoDup_request_symbols]. Qed.

(** X2. The symbols of [unique_symbols] are exactly the non-empty results
    of [strip] and [upper] on the comma-separated tokens of the input. *)
Theorem unique_symbols_members (raw s : string) :
  s ∈ unique_symbols raw ↔
  s ≠ EmptyString ∧
  ∃ token, token ∈ PyStr.split "," raw ∧ s = PyStr.upper (PyStr.strip token).
Proof. apply elem_of_unique_symbols. Qed.

(** *** Facts on [strip], [upper] and [split] *)

Lemma upper_char_idem (c : ascii) :
  PyStr.upper_char (PyStr.upper_char c) = PyStr.upper_char c.
Proof. destruct c as [[] [] [] [] [] [] [] []]; reflexivity. Qed.

Lemma isspace_upper_char (c : ascii) :
  PyStr.isspace (PyStr.upper_char c) = PyStr.isspace c.
Proof. destruct c as [[] [] [] [] [] [] [] []]; reflexivity. Qed.

Lemma eqb_upper_char_comma (c : ascii) :
  Ascii.eqb (PyStr.upper_char c) "," = Ascii.eqb c ",".
Proof. destruct c as [[] [] [] [] [] [] [] []]; reflexivity. Qed.

Lemma upper_empty (s : string) : PyStr.upper s = EmptyString ↔ s = EmptyString.
Proof. by destruct s. Qed.

Lemma upper_idem (s : string) : PyStr.upper (PyStr.upper s) = PyStr.upper s.
Proof.
  induction s as [|c s IH]; [done|]. cbn. by rewrite upper_char_idem, IH.
Qed.

Lemma upper_lstrip (s : string) :
  PyStr.upper (PyStr.lstrip s) = PyStr.lstrip (PyStr.upper s).
Proof.
  induction s as [|c s IH]; [done|]. cbn. rewrite isspace_upper_char.
  by destruct (PyStr.isspace c).
Qed.

Lemma upper_rstrip (s : string) :
  PyStr.upper (PyStr.rstrip s) = PyStr.rstrip (PyStr.upper s).
Proof.
  induction s as [|c s IH]; [done|]. cbn. rewrite <- IH, isspace_upper_char.
  destruct (PyStr.rstrip s); cbn; [|done]. by destruct (PyStr.isspace c).
Qed.

Lemma upper_strip (s : string) :
  PyStr.upper (PyStr.strip s) = PyStr.strip (PyStr.upper s).
Proof. unfold PyStr.strip. by rewrite upper_rstrip, upper_lstrip. Qed.

Lemma rstrip_cons (c : ascii) (s : string) :
  PyStr.rstrip (String c s) =
  match PyStr.rstrip s with
  | EmptyString => if PyStr.isspace c then EmptyString else String c EmptyString
  | r => String c r
  end.
Proof. reflexivity. Qed.

Lemma rstrip_idem (s : string) : PyStr.rstrip (PyStr.rstrip s) = PyStr.rstrip s.
Proof.
  induction s as [|c s IH]; [done|]. rewrite rstrip_cons.
  destruct (PyStr.rstrip s) as [|c' r] eqn:Hr.
  - destruct (PyStr.isspace c) eqn:Hc; [done|]. cbn. by rewrite Hc.
  - by rewrite rstrip_cons, IH.
Qed.

(** A string that does not start with a blank. *)
Lemma lstrip_starts (s : string) :
  match PyStr.lstrip s with
  | EmptyString => True
  | String c _ => PyStr.isspace c = false
  end.
Proof.
  induction s as [|c s IH]; [done|]. cbn.
  by destruct (PyStr.isspace c) eqn:Hc.
Qed.

Lemma lstrip_rstrip_lstrip (s : string) :
  PyStr.lstrip (PyStr.rstrip (PyStr.lstrip s)) = PyStr.rstrip (PyStr.lstrip s).
Proof.
  pose proof (lstrip_starts s) as Hs.
  destruct (PyStr.lstrip s) as [|c t]; [done|]. cbn. rewrite Hs.
  destruct (PyStr.rstrip t); cbn; by rewrite Hs.
Qed.

Lemma strip_idem (s : string) : PyStr.strip (PyStr.strip s) = PyStr.strip s.
Proof. unfold PyStr.strip. by rewrite lstrip_rstrip_lstrip, rstrip_idem. Qed.

Lemma normal_idem (token : string) :
  PyStr.upper (PyStr.strip (PyStr.upper (PyStr.strip token))) =
  PyStr.upper (PyStr.strip token).
Proof. by rewrite <- upper_strip, strip_idem, upper_idem. Qed.

Lemma contains_upper (s : string) :
  contains "," (PyStr.upper s) = contains "," s.
Proof.
  induction s as [|c s IH]; [done|]. cbn. by rewrite eqb_upper_char_comma, IH.
Qed.

Lemma contains_lstrip (sep : ascii) (s : string) :
  contains sep s = false → contains sep (PyStr.lstrip s) = false.
Proof.
  induction s as [|c s IH]; [done|]. cbn. intros H.
  destruct (PyStr.isspace c); [|exact H].
  apply IH. by apply orb_false_iff in H as [_ ?].
Qed.

Lemma contains_rstrip (sep : ascii) (s : string) :
  contains sep s = false → contains sep (PyStr.rstrip s) = false.
Proof.
  induction s as [|c s IH]; [done|]. rewrite rstrip_cons. cbn.
  intros [Hc Hs]%orb_false_iff. specialize (IH Hs).
  destruct (PyStr.rstrip s) as [|c' r].
  - destruct (PyStr.isspace c); [done|]. cbn. by rewrite Hc.
  - cbn in IH |- *. by rewrite Hc, IH.
Qed.

Lemma contains_normal (token : string) :
  contains "," token = false →
  contains "," (PyStr.upper (PyStr.strip token)) = false.
Proof.
  intros H. rewrite contains_upper. unfold PyStr.strip.
  by apply contains_rstrip, contains_lstrip.
Qed.

Lemma split_not_nil (sep : ascii) (s : string) : PyStr.split sep s ≠ [].
Proof.
  destruct s as [|c s]; [done|]. cbn.
  destruct (Ascii.eqb c sep); [done|]. by destruct (PyStr.split sep s).
Qed.

(** No token of [split] holds the separator. *)
Lemma split_tokens (sep : ascii) (s : string) :
  Forall (λ token, contains sep token = false) (PyStr.split sep s).
Proof.
  induction s as [|c s IH]; [by repeat constructor|]. cbn.
  destruct (Ascii.eqb c sep) eqn:Hc; [by constructor|].
  destruct (PyStr.split sep s) as [|t ts]; [by repeat constructor; cbn; rewrite Hc|].
  inversion IH as [|? ? Ht Hts]; subst. constructor; [|done].
  cbn. by rewrite Hc, Ht.
Qed.

(** X3. For ASCII input, every symbol of the list is in normal form: it
    is not empty, [strip] and [upper] leave it as it is, and it holds no
    comma. *)
Theorem unique_symbols_normal (raw s : string) :
  is_ascii raw → s ∈ unique_symbols raw → normal_symbol s.
Proof.
  intros _ (Hne & token & Hin & ->)%elem_of_unique_symbols.
  split_and!; [done|apply normal_idem|].
  apply contains_normal.
  pose proof (split_tokens "," raw) as Htokens.
  rewrite Forall_forall in Htokens. by apply Htokens.
Qed.



Lemma split_no_sep (sep : ascii) (s : string) :
  contains sep s = false → PyStr.split sep s = [s].
Proof.
  induction s as [|c s IH]; [done|]. cbn. intros [Hc Hs]%orb_false_iff.
  by rewrite Hc, (IH Hs).
Qed.

Lemma append_cons (c : ascii) (s t : string) :
  (String c s ++ t)%string = String c (s ++ t)%string.
Proof. reflexivity. Qed.

Lemma split_app_sep (sep : ascii) (s rest : string) :
  contains sep s = false →
  PyStr.split sep (s ++ String sep rest) = s :: PyStr.split sep rest.
Proof.
  induction s as [|c s IH].
  - intros _. change (EmptyString ++ String sep rest)%string with (String sep rest).
    cbn. by rewrite Ascii.eqb_refl.
  - intros [Hc Hs]%orb_false_iff. rewrite append_cons. cbn.
    by rewrite Hc, (IH Hs).
Qed.

(** [split] undoes [join] on tokens without a comma. *)
Lemma split_join (l : list string) :
  l ≠ [] → Forall (λ s, contains "," s = false) l →
  PyStr.split "," (PyStr.join "," l) = l.
Proof.
  intros Hne Hl. induction Hl as [|s l Hs Hl IH]; [done|].
  destruct l as [|s' l'].
  - cbn. by apply split_no_sep.
  - change (PyStr.join "," (s :: s' :: l'))
      with (s ++ String "," (PyStr.join "," (s' :: l'))).
    rewrite split_app_sep by done. by rewrite IH.
Qed.

Lemma request_symbols_join (l : list string) :
  Forall normal_symbol l → NoDup l → (length l ≤ MAX_SYMBOLS)%nat →
  request_symbols (PyStr.join "," l) = l.
Proof.
  intros Hl Hdup Hlen. destruct (decide (l = [])) as [->|Hne]; [by vm_compute|].
  unfold request_symbols. rewrite unique_symbols_spec, split_join.
  - rewrite Forall_forall in Hl.
    assert (Hmap : map (λ token, PyStr.upper (PyStr.strip token)) l = l).
    { rewrite <- (List.map_id l) at 2. apply List.map_ext_in.
      intros x Hx%list_elem_of_In. by apply Hl. }
    rewrite Hmap, filter_all_in, keep_first_NoDup, take_ge; [done..|].
    intros x Hx. by apply Hl.
  - done.
  - eapply Forall_impl; [exact Hl|]. by intros x (_ & _ & ?).
Qed.

Lemma request_symbols_normal (raw : string) :
  Forall normal_symbol (request_symbols raw).
Proof.
  apply Forall_forall. intros s Hs. unfold request_symbols in Hs.
  apply (subseteq_take MAX_SYMBOLS) in Hs.
  apply elem_of_unique_symbols in Hs as (Hne & token & Hin & ->).
  split_and!; [done|apply normal_idem|].
  apply contains_normal.
  pose proof (split_tokens "," raw) as Htokens.
  rewrite Forall_forall in Htokens. by apply Htokens.
Qed.

(** X4. A list of at most 220 distinct symbols in normal form is read back
    from its comma-separated form unchanged. *)
Theorem request_symbols_round_trip (l : list string) :
  Forall normal_symbol l → NoDup l → (length l ≤ MAX_SYMBOLS)%nat →
  request_symbols (PyStr.join "," l) = l.
Proof. apply request_symbols_join. Qed.

(** X5. For ASCII input, normalising is idempotent: the symbol list of a
    request, joined with commas and normalised again, is the same list. *)
Theorem request_symbols_idempotent (raw : string) :
  is_ascii raw →
  request_symbols (PyStr.join "," (request_symbols raw)) = request_symbols raw.
Proof.
  intros _. apply request_symbols_join.
  - apply request_symbols_normal.
  - apply NoDup_request_symbols.
  - unfold request_symbols. rewrite length_take. lia.
Qed.

Lemma split_upper (raw : string) :
  PyStr.split "," (PyStr.upper raw) = map PyStr.upper (PyStr.split "," raw).
Proof.
  induction raw as [|c raw IH]; [done|]. cbn.
  rewrite eqb_upper_char_comma, IH.
  destruct (Ascii.eqb c ","); [done|]. by destruct (PyStr.split "," raw).
Qed.

(** X6. For ASCII input, the symbol list does not depend on the case of
    the input. *)
Theorem unique_symbols_case_insensitive (raw : string) :
  is_ascii raw →
  unique_symbols (PyStr.upper raw) = unique_symbols raw ∧
  request_symbols (PyStr.upper raw) = request_symbols raw.
Proof.
  intros _. assert (H : unique_symbols (PyStr.upper raw) = unique_symbols raw).
  { rewrite !unique_symbols_spec, split_upper, List.map_map.
    do 2 f_equal. apply List.map_ext. intros token.
    by rewrite <- upper_strip, upper_idem. }
  split; [done|]. unfold request_symbols. by rewrite H.
Qed.

Lemma unique_symbols_nil (raw : string) :
  unique_symbols raw = [] ↔
  Forall (λ token, PyStr.strip token = EmptyString) (PyStr.split "," raw).
Proof.
  rewrite Forall_forall. split.
  - intros Hnil token Hin.
    destruct (PyStr.strip token) as [|c t] eqn:Ht; [done|].
    assert (Hs : PyStr.upper (PyStr.strip token) ∈ unique_symbols raw).
    { apply elem_of_unique_symbols. split; [by rewrite Ht|]. by exists token. }
    rewrite Hnil in Hs. by apply elem_of_nil in Hs.
  - intros Hall. destruct (unique_symbols raw) as [|s l] eqn:Hl; [done|].
    assert (Hs : s ∈ unique_symbols raw) by (rewrite Hl; left).
    apply elem_of_unique_symbols in Hs as (Hne & token & Hin & ->).
    by rewrite (Hall token Hin) in Hne.
Qed.

Lemma request_symbols_nil (raw : string) :
  request_symbols raw = [] ↔
  Forall (λ token, PyStr.strip token = EmptyString) (PyStr.split "," raw).
Proof.
  rewrite <- unique_symbols_nil. unfold request_symbols. split.
  - intros [H|H]%take_nil_inv; [discriminate|done].
  - by intros ->.
Qed.

Lemma split_app (sep : ascii) (s rest : string) :
  PyStr.split sep (s ++ String sep rest) =
  (PyStr.split sep s ++ PyStr.split sep rest)%list.
Proof.
  induction s as [|c s IH].
  - change (EmptyString ++ String sep rest)%string with (String sep rest).
    cbn. by rewrite Ascii.eqb_refl.
  - rewrite append_cons. cbn. rewrite IH.
    destruct (Ascii.eqb c sep); [done|].
    pose proof (split_not_nil sep s). by destruct (PyStr.split sep s).
Qed.

(** The loop only appends to [out]. *)
Lemma unique_symbols_loop_extends (tokens : list string) :
  ∀ (seen : gset string) (out : list string),
    out `prefix_of` unique_symbols_loop tokens seen out.
Proof.
  induction tokens as [|token tokens IH]; intros seen out; cbn; [done|].
  destruct (negb _ || bool_decide _); [apply IH|].
  etrans; [|apply IH]. by apply prefix_app_r.
Qed.

(** The loop over two runs of tokens is the loop over the second run,
    started where the first one ended. *)
Lemma unique_symbols_loop_app (tokens more : list string) :
  ∀ (seen : gset string) (out : list string),
    ∃ seen' : gset string,
      unique_symbols_loop (tokens ++ more) seen out =
      unique_symbols_loop more seen' (unique_symbols_loop tokens seen out).
Proof.
  induction tokens as [|token tokens IH]; intros seen out; cbn; [by exists seen|].
  destruct (negb _ || bool_decide _); apply IH.
Qed.

(** X16. Appending tokens to a request changes nothing before them: the
    symbols of the shorter input are a prefix of the symbols of the longer
    one. *)
Theorem unique_symbols_append (raw more : string) :
  unique_symbols raw `prefix_of` unique_symbols (raw ++ "," ++ more).
Proof.
  change (raw ++ "," ++ more)%string with (raw ++ String "," more)%string.
  unfold unique_symbols. rewrite split_app.
  destruct (unique_symbols_loop_app (PyStr.split "," raw) (PyStr.split "," more) ∅ [])
    as [seen' ->].
  apply unique_symbols_loop_extends.
Qed.

(** X7. A request whose comma-separated tokens of the [symbols] value are
    all blank is answered, with the 400 response, and only such a request
    is; every response has status 400 exactly when every token is blank,
    and status 200 exactly when some token is not. *)
Theorem do_GET_status (float_of_str : string → outcome float) (yf : yfinance)
    (params : gmap string (string * list string)) :
  (Forall (λ token, PyStr.strip token = EmptyString)
     (PyStr.split "," (raw_symbols params)) ↔
   (do_GET float_of_str yf params).1 = Ok missing_symbols_response) ∧
  ∀ resp, (do_GET float_of_str yf params).1 = Ok resp →
    (status resp = 400 ↔
     Forall (λ token, PyStr.strip token = EmptyString)
       (PyStr.split "," (raw_symbols params))) ∧
    (status resp = 200 ↔
     Exists (λ token, PyStr.strip token ≠ EmptyString)
       (PyStr.split "," (raw_symbols params))).
Proof.
  assert (Hall : Forall (λ token, PyStr.strip token = EmptyString)
                   (PyStr.split "," (raw_symbols params)) ↔
                 symbols_of params = [])
    by (symmetry; apply request_symbols_nil).
  assert (Hex : Exists (λ token, PyStr.strip token ≠ EmptyString)
                  (PyStr.split "," (raw_symbols params)) ↔
                symbols_of params ≠ []).
  { split.
    - intros (token & Hin & Ht)%Exists_exists Hnil.
      apply Hall in Hnil. rewrite Forall_forall in Hnil.
      by apply Ht, Hnil.
    - intros Hne.
      apply (not_Forall_Exists (λ token, PyStr.strip token = EmptyString)).
      intros Hnil. by apply Hne, Hall. }
  split.
  - rewrite Hall. split.
    + intros Hnil. by rewrite do_GET_nil.
    + intros Hresp.
      apply do_GET_cases in Hresp as [[Hnil _]|(_ & records & Hrec)]; [done|].
      discriminate Hrec.
  - intros resp Hresp. rewrite Hex, Hall.
    apply do_GET_cases in Hresp as [[Hnil ->]|(Hne & records & ->)];
      cbn [status missing_symbols_response payload_response].
    + split; split; done.
    + split; split; done.
Qed.

(** X8. In every response no two records have the same symbol, there are
    at most as many records as symbols and so at most 220, and every record
    is for a requested symbol, has a price, has its symbol as its name and
    leaves [averageVolume], [high24h] and [low24h] absent. *)
Theorem payload_invariants (float_of_str : string → outcome float)
    (yf : yfinance) (params : gmap string (string * list string))
    (resp : Response) :
  (do_GET float_of_str yf params).1 = Ok resp →
  NoDup (symbol <$> response_payload resp) ∧
  (length (response_payload resp) ≤ length (symbols_of params))%nat ∧
  (length (response_payload resp) ≤ MAX_SYMBOLS)%nat ∧
  Forall (λ q, symbol q ∈ symbols_of params ∧ is_Some (price q) ∧
               name q = symbol q ∧ averageVolume q = None ∧
               high24h q = None ∧ low24h q = None)
    (response_payload resp).
Proof.
  intros Hresp. rewrite (do_GET_records _ _ _ _ Hresp).
  set (f := quote_of float_of_str yf (symbols_of params)).
  assert (Hsym : symbol <$> omap f (symbols_of params) =
                 filter (λ s, is_Some (f s)) (symbols_of params)).
  { apply payload_symbols. intros s q Hq.
    by apply quote_of_Some in Hq as (? & _). }
  assert (Hlen : (length (omap f (symbols_of params)) ≤
                  length (symbols_of params))%nat).
  { rewrite <- (length_fmap symbol), Hsym. apply length_filter. }
  split_and!.
  - rewrite Hsym. apply NoDup_filter, NoDup_request_symbols.
  - exact Hlen.
  - etrans; [exact Hlen|]. unfold symbols_of, request_symbols.
    rewrite length_take. lia.
  - apply Forall_forall. intros q (s & Hs & Hq)%list_elem_of_omap.
    apply quote_of_Some in Hq as (<- & ? & _ & ? & ? & ? & ?). by split_and!.
Qed.

(** ** The further properties on the sample data *)

Lemma sample_request_is_ascii : is_ascii "aapl, MSFT".
Proof. cbn. repeat (split; [by apply Nat.ltb_lt|]). exact I. Qed.

(** X3 on the request [aapl, MSFT]. *)
Lemma unique_symbols_normal_witness :
  is_ascii "aapl, MSFT" ∧ "AAPL" ∈ unique_symbols "aapl, MSFT" ∧
  normal_symbol "AAPL".
Proof.
  assert (H : "AAPL" ∈ unique_symbols "aapl, MSFT") by (vm_compute; left).
  split; [exact sample_request_is_ascii|]. split; [exact H|].
  exact (unique_symbols_normal "aapl, MSFT" "AAPL" sample_request_is_ascii H).
Defined.

(** X5 on the request [aapl, MSFT]. *)
Lemma request_symbols_idempotent_witness :
  is_ascii "aapl, MSFT" ∧
  request_symbols (PyStr.join "," (request_symbols "aapl, MSFT")) =
  request_symbols "aapl, MSFT".
Proof.
  split; [exact sample_request_is_ascii|].
  exact (request_symbols_idempotent "aapl, MSFT" sample_request_is_ascii).
Defined.

(** X6 on the request [aapl, MSFT]. *)
Lemma unique_symbols_case_insensitive_witness :
  is_ascii "aapl, MSFT" ∧
  unique_symbols (PyStr.upper "aapl, MSFT") = unique_symbols "aapl, MSFT".
Proof.
  split; [exact sample_request_is_ascii|].
  exact (proj1 (unique_symbols_case_insensitive "aapl, MSFT"
                  sample_request_is_ascii)).
Defined.

(** X4 on the list AAPL, MSFT. *)
Lemma request_symbols_round_trip_witness :
  Forall normal_symbol ["AAPL"; "MSFT"] ∧ NoDup ["AAPL"; "MSFT"] ∧
  (length ["AAPL"; "MSFT"] ≤ MAX_SYMBOLS)%nat ∧
  request_symbols (PyStr.join "," ["AAPL"; "MSFT"]) = ["AAPL"; "MSFT"].
Proof.
  assert (H1 : Forall normal_symbol ["AAPL"; "MSFT"])
    by (repeat constructor; discriminate).
  assert (H2 : NoDup ["AAPL"; "MSFT"])
    by (apply NoDup_ListNoDup; repeat constructor; cbn; intuition discriminate).
  assert (H3 : (length ["AAPL"; "MSFT"] ≤ MAX_SYMBOLS)%nat)
    by (unfold MAX_SYMBOLS; cbn; lia).
  split_and!; [exact H1|exact H2|exact H3|].
  exact (request_symbols_round_trip ["AAPL"; "MSFT"] H1 H2 H3).
Defined.

(** X14 on the ticker with a live price of 110.0, whose history fails. *)
Lemma live_price_ignores_history_witness :
  Locals.close (live_fields Sample.float_of_str (read_fast Sample.ticker_live)) =
    Some 110%float ∧
  resolve_fields Sample.float_of_str Sample.ticker_live "MSFT" =
    (live_fields Sample.float_of_str (read_fast Sample.ticker_live),
     [ReadFastInfo "MSFT"]).
Proof.
  split; [reflexivity|].
  exact (proj1 (live_price_ignores_history Sample.float_of_str Sample.ticker_live
                  "MSFT" 110%float eq_refl)).
Defined.

(** X15 on the two daily bars: a previous close, so two closes that are not
    missing. *)
Lemma parse_close_and_prev_needs_witness :
  is_Some (parse_close_and_prev Sample.float_of_str (Some Sample.bars_98_101)).1.2 ∧
  ∃ h, Some Sample.bars_98_101 = Some h ∧ index h ≠ [] ∧
       (2 ≤ length (dropna (default [] (columns h !! "Close"))))%nat.
Proof.
  assert (H : is_Some
    (parse_close_and_prev Sample.float_of_str (Some Sample.bars_98_101)).1.2)
    by (by eexists).
  split; [exact H|].
  exact (proj1 (proj2
           (parse_close_and_prev_needs Sample.float_of_str (Some Sample.bars_98_101)))
           H).
Defined.

(** X8 on the sample request: two records, with different symbols. *)
Lemma payload_invariants_witness :
  ∃ resp,
    (do_GET Sample.float_of_str Sample.client Sample.params_three).1 = Ok resp ∧
    NoDup (symbol <$> response_payload resp) ∧
    (length (response_payload resp) ≤ MAX_SYMBOLS)%nat.
Proof.
  eexists. split; [reflexivity|].
  pose proof (payload_invariants Sample.float_of_str Sample.client
                Sample.params_three _ eq_refl) as (Hdup & _ & Hlen & _).
  split; [exact Hdup|exact Hlen].
Defined.

(** X10 on the sample request: the history is asked for AAPL, whose live
    snapshot fails. *)
Lemma calls_made_witness :
  ∃ resp,
    (do_GET Sample.float_of_str Sample.client Sample.params_three).1 = Ok resp ∧
    (CallHistory "AAPL" ∈
       (do_GET Sample.float_of_str Sample.client Sample.params_three).2 ↔
     "AAPL" ∈ symbols_of Sample.params_three ∧
     ∃ ticker,
       ticker_of Sample.client (symbols_of Sample.params_three) "AAPL" = Ok ticker ∧
       Locals.close (live_fields Sample.float_of_str (read_fast ticker)) = None).
Proof.
  eexists. split; [reflexivity|].
  exact (proj1 (proj2 (calls_made Sample.float_of_str Sample.client
                         Sample.params_three _ "AAPL" eq_refl))).
Defined.

(** X11 on the sample request: the payload is not empty, AAPL has a
    price. *)
Lemma payload_empty_iff_witness :
  ∃ resp,
    (do_GET Sample.float_of_str Sample.client Sample.params_three).1 = Ok resp ∧
    (response_payload resp = [] ↔
     ∀ s, s ∈ symbols_of Sample.params_three →
          resolved_price Sample.float_of_str Sample.client
            (symbols_of Sample.params_three) s = None).
Proof.
  eexists. split; [reflexivity|].
  exact (payload_empty_iff Sample.float_of_str Sample.client
           Sample.params_three _ eq_refl).
Defined.
